(** * BTU Task Schedule: the document controller of [btu_task_schedule.py]

    A shallow embedding of the controller class [BTUTaskSchedule] and of the
    module-level functions next to it: the field checks, the translation of
    the structured fields into a Unix cron string, the save hooks that talk
    to the BTU Scheduler daemon, the reader of the last execution results
    and the bulk resubmission.

    Python objects are modelled as they are used by the module:
    - a document field holds [None], an integer or a text ([value]);
    - text is a [string] of 8-bit characters (the module only handles
      ASCII text: weekday names, month abbreviations, digits);
    - Python floats are IEEE binary64 numbers, that is Rocq's primitive
      [float];
    - exceptions are values of [exn]; a computation that can raise returns
      a [result];
    - methods mutate [self] and talk to the outside world, so they are
      computations in a state-and-exception monad whose state survives a
      raised exception, as the attributes of a Python object do. *)

From Stdlib Require Import ZArith List String Ascii Bool Lia Floats DecimalString.
Import ListNotations.

Local Open Scope string_scope.
Local Open Scope Z_scope.

(** ** Python values and exceptions *)

Inductive value : Type :=
| VNone
| VInt (n : Z)
| VStr (s : string).

(** [bool(v)]: [None], [0] and the empty text are false. *)
Definition truthy (v : value) : bool :=
  match v with
  | VNone => false
  | VInt n => negb (n =? 0)
  | VStr s => negb (String.eqb s "")
  end.

Definition is_None (v : value) : bool :=
  match v with VNone => true | _ => false end.

(** [str(n)] on an integer: its decimal numeral. *)
Definition str_of_Z (n : Z) : string := NilZero.string_of_int (Z.to_int n).

(** [str(v)], also what an f-string prints for [v]. *)
Definition py_str (v : value) : string :=
  match v with
  | VNone => "None"
  | VInt n => str_of_Z n
  | VStr s => s
  end.

Inductive exn : Type :=
| ValueError (msg : string)
| TypeError (msg : string)
| AttributeError (msg : string)
| ConnectionError (msg : string)
| OtherException (msg : string).

(** [str(ex)] *)
Definition exn_message (e : exn) : string :=
  match e with
  | ValueError m | TypeError m | AttributeError m
  | ConnectionError m | OtherException m => m
  end.

Inductive result (A : Type) : Type :=
| Ok (a : A)
| Raise (e : exn).

Arguments Ok {A} a.
Arguments Raise {A} e.

Definition rbind {A B : Type} (r : result A) (k : A -> result B) : result B :=
  match r with
  | Ok a => k a
  | Raise e => Raise e
  end.

Definition raised {A : Type} (r : result A) : bool :=
  match r with Ok _ => false | Raise _ => true end.

Declare Scope result_scope.
Delimit Scope result_scope with result.
Notation "'do' x <- r ; k" := (rbind r (fun x => k))
  (at level 10, x name, r at level 100, k at level 200) : result_scope.
Notation "'check' r ; k" := (rbind r (fun _ => k))
  (at level 10, r at level 100, k at level 200) : result_scope.

(** ** Text operations used by the module *)

Definition newline : string := String (ascii_of_nat 10) EmptyString.

(** [c in s] for a single character [c]. *)
Fixpoint contains_char (c : ascii) (s : string) : bool :=
  match s with
  | EmptyString => false
  | String d s' => Ascii.eqb c d || contains_char c s'
  end.

Definition pipe : ascii := "|"%char.

(** [s.startswith(p)] *)
Definition startswith (p s : string) : bool := String.prefix p s.

Definition is_digit (c : ascii) : bool :=
  let n := nat_of_ascii c in (48 <=? n)%nat && (n <=? 57)%nat.

Fixpoint all_digits (s : string) : bool :=
  match s with
  | EmptyString => true
  | String c s' => is_digit c && all_digits s'
  end.

(** [s.isdigit()]: at least one character, all of them digits. *)
Definition isdigit (s : string) : bool :=
  negb (String.eqb s "") && all_digits s.

Definition digit_value (c : ascii) : Z := Z.of_nat (nat_of_ascii c) - 48.

Fixpoint digits_from (acc : Z) (s : string) : Z :=
  match s with
  | EmptyString => acc
  | String c s' => digits_from (10 * acc + digit_value c) s'
  end.

(** The value of a numeral made of digits only. *)
Definition int_of_digits (s : string) : Z := digits_from 0 s.

Definition is_space (c : ascii) : bool :=
  let n := nat_of_ascii c in ((9 <=? n)%nat && (n <=? 13)%nat) || (n =? 32)%nat.

Fixpoint lstrip (s : string) : string :=
  match s with
  | String c s' => if is_space c then lstrip s' else s
  | EmptyString => EmptyString
  end.

Fixpoint all_spaces (s : string) : bool :=
  match s with
  | EmptyString => true
  | String c s' => is_space c && all_spaces s'
  end.

(** Splits [s] into its longest prefix of digits and the rest. *)
Fixpoint span_digits (s : string) : string * string :=
  match s with
  | String c s' =>
      if is_digit c then let (d, r) := span_digits s' in (String c d, r)
      else (EmptyString, s)
  | EmptyString => (EmptyString, EmptyString)
  end.

Definition invalid_literal : exn :=
  ValueError "invalid literal for int() with base 10".

(** [int(s)] on text: surrounding white space, an optional sign, digits.
    (Python also accepts underscores between digits; no field of the
    document carries them, and they are a [ValueError] here.) *)
Definition int_of_text (s : string) : result Z :=
  let t := lstrip s in
  let '(sign, body) :=
    match t with
    | String "-"%char t' => (-1, t')
    | String "+"%char t' => (1, t')
    | _ => (1, t)
    end in
  let (d, r) := span_digits body in
  if negb (String.eqb d "") && all_spaces r then Ok (sign * int_of_digits d)
  else Raise invalid_literal.

(** [int(v)] *)
Definition py_int (v : value) : result Z :=
  match v with
  | VNone => Raise (TypeError "int() argument must be a string, a bytes-like object or a real number, not 'NoneType'")
  | VInt n => Ok n
  | VStr s => int_of_text s
  end.

Definition is_upper (c : ascii) : bool :=
  let n := nat_of_ascii c in (65 <=? n)%nat && (n <=? 90)%nat.

Definition is_lower (c : ascii) : bool :=
  let n := nat_of_ascii c in (97 <=? n)%nat && (n <=? 122)%nat.

Definition to_upper (c : ascii) : ascii :=
  if is_lower c then ascii_of_nat (nat_of_ascii c - 32) else c.

Definition to_lower (c : ascii) : ascii :=
  if is_upper c then ascii_of_nat (nat_of_ascii c + 32) else c.

(** [s.title()]: a letter that follows a letter is lowered, any other
    letter is raised. [prev] tells whether the previous character was a
    letter. *)
Fixpoint title_from (prev : bool) (s : string) : string :=
  match s with
  | EmptyString => EmptyString
  | String c s' =>
      let letter := is_upper c || is_lower c in
      String (if prev then to_lower c else to_upper c) (title_from letter s')
  end.

Definition title (s : string) : string := title_from false s.

(** [s[:3]] *)
Definition first_three (s : string) : string := substring 0 3 s.

(** [sep.join(items)]: every item must be text. *)
Fixpoint join (sep : string) (items : list value) : result string :=
  match items with
  | [] => Ok ""
  | VStr s :: rest =>
      match rest with
      | [] => Ok s
      | _ => do t <- join sep rest; Ok (s ++ sep ++ t)
      end%result
  | _ :: _ => Raise (TypeError "sequence item: expected str instance")
  end.

(** ** Floats

    [int / int] and [int - float] convert the integers to binary64
    (rounding to nearest) and then divide or subtract in binary64. The
    conversion gives infinity where Python raises [OverflowError]; the
    integers at hand are hours and seconds of a time-zone offset. *)
Definition float_of_int (z : Z) : float :=
  SF2Prim (binary_normalize prec emax z 0 false).

(** ** The calendar ([calendar.month_abbr], [calendar.monthrange]) *)

Definition month_abbr : list string :=
  [""; "Jan"; "Feb"; "Mar"; "Apr"; "May"; "Jun";
   "Jul"; "Aug"; "Sep"; "Oct"; "Nov"; "Dec"].

(** [{value: key for key, value in enumerate(calendar.month_abbr)}.get(k)] *)
Fixpoint month_index (k : string) (names : list string) (i : Z) : option Z :=
  match names with
  | [] => None
  | n :: rest => if String.eqb k n then Some i else month_index k rest (i + 1)
  end.

Definition month_dict_get (k : string) : option Z := month_index k month_abbr 0.

Definition isleap (year : Z) : bool :=
  (year mod 4 =? 0) && (negb (year mod 100 =? 0) || (year mod 400 =? 0)).

Definition mdays : list Z := [0; 31; 28; 31; 30; 31; 30; 31; 31; 30; 31; 30; 31].

(** [monthrange(year, month)[1]]: the number of days of the month. The
    argument is what [dict.get] returned, so it may be [None]. *)
Definition monthrange_days (year : Z) (month : option Z) : result Z :=
  match month with
  | None => Raise (TypeError "'<=' not supported between instances of 'int' and 'NoneType'")
  | Some m =>
      if (1 <=? m) && (m <=? 12)
      then Ok (nth (Z.to_nat m) mdays 0 + (if (m =? 2) && isleap year then 1 else 0))
      else Raise (ValueError "bad month number; must be 1-12")
  end.

(** ** The document and its host

    The columns of a BTU Task Schedule that the controller reads or
    writes. [enabled] is a check box; [name] is the primary key. *)
Record BTUTaskSchedule : Type := {
  name : string;
  task : string;
  task_description : value;
  run_frequency : string;
  day_of_week : value;
  day_of_month : value;
  month : value;
  hour : value;
  minute : value;
  cron_string : value;
  schedule_description : value;
  enabled : bool;
  redis_job_id : string;
  argument_overrides : value
}.

Definition set_task_description (v : value) (d : BTUTaskSchedule) :=
  {| name := name d; task := task d; task_description := v;
     run_frequency := run_frequency d; day_of_week := day_of_week d;
     day_of_month := day_of_month d; month := month d; hour := hour d;
     minute := minute d; cron_string := cron_string d;
     schedule_description := schedule_description d; enabled := enabled d;
     redis_job_id := redis_job_id d; argument_overrides := argument_overrides d |}.

Definition set_schedule_description (v : value) (d : BTUTaskSchedule) :=
  {| name := name d; task := task d; task_description := task_description d;
     run_frequency := run_frequency d; day_of_week := day_of_week d;
     day_of_month := day_of_month d; month := month d; hour := hour d;
     minute := minute d; cron_string := cron_string d;
     schedule_description := v; enabled := enabled d;
     redis_job_id := redis_job_id d; argument_overrides := argument_overrides d |}.

Definition set_day_of_week (v : value) (d : BTUTaskSchedule) :=
  {| name := name d; task := task d; task_description := task_description d;
     run_frequency := run_frequency d; day_of_week := v;
     day_of_month := day_of_month d; month := month d; hour := hour d;
     minute := minute d; cron_string := cron_string d;
     schedule_description := schedule_description d; enabled := enabled d;
     redis_job_id := redis_job_id d; argument_overrides := argument_overrides d |}.

Definition set_day_of_month (v : value) (d : BTUTaskSchedule) :=
  {| name := name d; task := task d; task_description := task_description d;
     run_frequency := run_frequency d; day_of_week := day_of_week d;
     day_of_month := v; month := month d; hour := hour d;
     minute := minute d; cron_string := cron_string d;
     schedule_description := schedule_description d; enabled := enabled d;
     redis_job_id := redis_job_id d; argument_overrides := argument_overrides d |}.

Definition set_month (v : value) (d : BTUTaskSchedule) :=
  {| name := name d; task := task d; task_description := task_description d;
     run_frequency := run_frequency d; day_of_week := day_of_week d;
     day_of_month := day_of_month d; month := v; hour := hour d;
     minute := minute d; cron_string := cron_string d;
     schedule_description := schedule_description d; enabled := enabled d;
     redis_job_id := redis_job_id d; argument_overrides := argument_overrides d |}.

Definition set_hour (v : value) (d : BTUTaskSchedule) :=
  {| name := name d; task := task d; task_description := task_description d;
     run_frequency := run_frequency d; day_of_week := day_of_week d;
     day_of_month := day_of_month d; month := month d; hour := v;
     minute := minute d; cron_string := cron_string d;
     schedule_description := schedule_description d; enabled := enabled d;
     redis_job_id := redis_job_id d; argument_overrides := argument_overrides d |}.

Definition set_minute (v : value) (d : BTUTaskSchedule) :=
  {| name := name d; task := task d; task_description := task_description d;
     run_frequency := run_frequency d; day_of_week := day_of_week d;
     day_of_month := day_of_month d; month := month d; hour := hour d;
     minute := v; cron_string := cron_string d;
     schedule_description := schedule_description d; enabled := enabled d;
     redis_job_id := redis_job_id d; argument_overrides := argument_overrides d |}.

Definition set_cron_string (v : value) (d : BTUTaskSchedule) :=
  {| name := name d; task := task d; task_description := task_description d;
     run_frequency := run_frequency d; day_of_week := day_of_week d;
     day_of_month := day_of_month d; month := month d; hour := hour d;
     minute := minute d; cron_string := v;
     schedule_description := schedule_description d; enabled := enabled d;
     redis_job_id := redis_job_id d; argument_overrides := argument_overrides d |}.

Definition set_enabled (b : bool) (d : BTUTaskSchedule) :=
  {| name := name d; task := task d; task_description := task_description d;
     run_frequency := run_frequency d; day_of_week := day_of_week d;
     day_of_month := day_of_month d; month := month d; hour := hour d;
     minute := minute d; cron_string := cron_string d;
     schedule_description := schedule_description d; enabled := b;
     redis_job_id := redis_job_id d; argument_overrides := argument_overrides d |}.

Definition set_redis_job_id (s : string) (d : BTUTaskSchedule) :=
  {| name := name d; task := task d; task_description := task_description d;
     run_frequency := run_frequency d; day_of_week := day_of_week d;
     day_of_month := day_of_month d; month := month d; hour := hour d;
     minute := minute d; cron_string := cron_string d;
     schedule_description := schedule_description d; enabled := enabled d;
     redis_job_id := s; argument_overrides := argument_overrides d |}.

(** What the module imports and calls but does not define: the cron
    grammar check of the [btu] package, the libraries, the clock, the
    Scheduler daemon and the Redis connection. Each is a function of its
    arguments; one that can raise returns a [result].

    - [validate_cron_string s flag]: [btu.validate_cron_string(s)] when
      [flag] is [None], [btu.validate_cron_string(s, error_on_invalid=b)]
      when it is [Some b];
    - [float_str]: [str] on a float;
    - [timegm_localtime], [timegm_gmtime]: the two readings
      [timegm(current_time)] and [timegm(gmtime(mktime(current_time)))]
      of [get_utc_time_diff], in seconds;
    - [current_year]: [datetime.now().year];
    - [task_desc_short t]: [frappe.get_doc("BTU Task", t).desc_short];
    - [get_description]: [cron_descriptor.get_description];
    - [reload_task_schedule], [cancel_task_schedule]: the two requests of
      [SchedulerAPI], by task schedule id;
    - [hget key field]: [conn.hget(key, field)] on the Redis connection
      that [get_redis_conn()] returned, [None] when the field is missing;
    - [decode_utf8], [zlib_decompress]: [bytes.decode('utf-8')] and
      [zlib.decompress];
    - [literal_eval]: [ast.literal_eval], whose results are the Python
      objects [pyobj], [py_None] among them. *)
Record host : Type := {
  validate_cron_string : string -> option bool -> result bool;
  float_str : float -> string;
  timegm_localtime : Z;
  timegm_gmtime : Z;
  current_year : Z;
  task_desc_short : string -> result value;
  get_description : value -> result string;
  reload_task_schedule : string -> result value;
  cancel_task_schedule : string -> result value;
  hget : string -> string -> result (option string);
  decode_utf8 : string -> result string;
  zlib_decompress : string -> result string;
  pyobj : Type;
  py_None : pyobj;
  literal_eval : value -> result pyobj
}.

(** ** The static functions *)

Definition check_minutes (minute : value) : result unit :=
  match minute with
  | VNone => Raise (ValueError "Minute value must be between 0 and 59")
  | VInt m =>
      if negb (truthy (VInt m)) || negb ((0 <=? m) && (m <? 60))
      then Raise (ValueError "Minute value must be between 0 and 59")
      else Ok tt
  | VStr s =>
      if negb (truthy (VStr s))
      then Raise (ValueError "Minute value must be between 0 and 59")
      else Raise (TypeError "'<=' not supported between instances of 'int' and 'str'")
  end.

Definition check_hours (hour : value) : result unit :=
  match hour with
  | VNone => Raise (ValueError "Hour value must be between 0 and 23")
  | VInt h =>
      if negb (truthy (VInt h))
      then Raise (ValueError "Hour value must be between 0 and 23")
      else Raise (AttributeError "'int' object has no attribute 'isdigit'")
  | VStr s =>
      if negb (truthy (VStr s)) || negb (isdigit s)
         || negb ((0 <=? int_of_digits s) && (int_of_digits s <? 24))
      then Raise (ValueError "Hour value must be between 0 and 23")
      else Ok tt
  end.

Definition check_day_of_week (day_of_week : value) : result unit :=
  if negb (truthy day_of_week) || is_None day_of_week
  then Raise (ValueError "Please select a day of the week")
  else Ok tt.

Section Module_functions.

Variable h : host.

Definition check_day_of_month (run_frequency : string) (day month : value)
  : result unit :=
  (check (if String.eqb run_frequency "Monthly" && negb (truthy day)
          then Raise (ValueError "Please select a day of the month")
          else Ok tt);
   if String.eqb run_frequency "Yearly" then
     if truthy day && truthy month then
       do last <- monthrange_days (current_year h)
                    (month_dict_get (title (py_str month)));
       do d <- py_int day;
       if last <? d
       then Raise (ValueError
              ("Day value for " ++ py_str month ++ " must be between 1 and "
                 ++ str_of_Z last))
       else Ok tt
     else Raise (ValueError "Please select a day of the week and a month")
   else Ok tt)%result.

(** The inner function of [schedule_to_cron_string]. *)
Definition get_utc_time_diff : float :=
  PrimFloat.div (float_of_int (timegm_localtime h - timegm_gmtime h))
                (float_of_int 3600).

(** The list [cron] of [schedule_to_cron_string], as it stands before
    the join. *)
Definition cron_fields (doc_schedule : BTUTaskSchedule) : result (list value) :=
  (let c0 := if is_None (minute doc_schedule) then VStr "*"
             else VStr (py_str (minute doc_schedule)) in
   do c1 <- (if is_None (hour doc_schedule) then Ok (VStr "*")
             else do n <- py_int (hour doc_schedule);
                  Ok (VStr (float_str h
                              (PrimFloat.sub (float_of_int n) get_utc_time_diff))));
   let c2 := if is_None (day_of_month doc_schedule) then VStr "*"
             else VStr (py_str (day_of_month doc_schedule)) in
   let c3 := if is_None (month doc_schedule) then VStr "*"
             else month doc_schedule in
   do c4 <- match day_of_week doc_schedule with
            | VNone => Ok (VStr "*")
            | VStr s => Ok (VStr (first_three s))
            | VInt _ => Raise (TypeError "'int' object is not subscriptable")
            end;
   Ok [c0; c1; c2; c3; c4])%result.

Definition schedule_to_cron_string (doc_schedule : BTUTaskSchedule)
  : result value :=
  if String.eqb (run_frequency doc_schedule) "Cron Style"
  then Ok (cron_string doc_schedule)
  else
    (do cron <- cron_fields doc_schedule;
     do result <- join " " cron;
     check (validate_cron_string h result (Some true));
     Ok (VStr result))%result.

End Module_functions.

(** ** State and exceptions

    What a method leaves behind when it returns or raises: the attributes
    of [self], the rows of the table and the messages and requests sent so
    far. *)
Inductive event : Type :=
| reload_request (task_schedule_id : string)
| cancel_request (task_schedule_id : string)
| msgprint (message : string)
| print (message : string).

Record world : Type := {
  db : list BTUTaskSchedule;
  log : list event
}.

Record frame : Type := {
  self : BTUTaskSchedule;
  env : world
}.

Definition M (S A : Type) : Type := S -> result A * S.

Definition ret {S A : Type} (a : A) : M S A := fun s => (Ok a, s).

Definition raise {S A : Type} (e : exn) : M S A := fun s => (Raise e, s).

Definition bind {S A B : Type} (m : M S A) (k : A -> M S B) : M S B :=
  fun s =>
    match m s with
    | (Ok a, s') => k a s'
    | (Raise e, s') => (Raise e, s')
    end.

(** [try: body except Exception as ex: handler(ex)] *)
Definition try_except {S A : Type} (body : M S A) (handler : exn -> M S A)
  : M S A :=
  fun s =>
    match body s with
    | (Ok a, s') => (Ok a, s')
    | (Raise e, s') => handler e s'
    end.

Definition lift {S A : Type} (r : result A) : M S A := fun s => (r, s).

Definition get {S : Type} : M S S := fun s => (Ok s, s).

Definition modify {S : Type} (f : S -> S) : M S unit := fun s => (Ok tt, f s).

Declare Scope monad_scope.
Delimit Scope monad_scope with monad.
Notation "x <- m ;; k" := (bind m (fun x => k))
  (at level 61, m at next level, right associativity) : monad_scope.
Notation "m ;; k" := (bind m (fun _ => k))
  (at level 61, right associativity) : monad_scope.

Definition record_event (e : event) (w : world) : world :=
  {| db := db w; log := (log w ++ [e])%list |}.

Definition on_self (f : BTUTaskSchedule -> BTUTaskSchedule) : M frame unit :=
  modify (fun s => {| self := f (self s); env := env s |}).

Definition emit (e : event) : M frame unit :=
  modify (fun s => {| self := self s; env := record_event e (env s) |}).

Definition get_self : M frame BTUTaskSchedule := fun s => (Ok (self s), s).

(** [frappe.get_doc("BTU Task Schedule", id)] against the rows. *)
Definition find_doc (id : string) (rows : list BTUTaskSchedule)
  : option BTUTaskSchedule :=
  find (fun d => String.eqb (name d) id) rows.

(** The row of [doc] is replaced, or added when the table has none. *)
Fixpoint db_update (doc : BTUTaskSchedule) (rows : list BTUTaskSchedule)
  : list BTUTaskSchedule :=
  match rows with
  | [] => [doc]
  | d :: rest =>
      if String.eqb (name d) (name doc) then doc :: rest
      else d :: db_update doc rest
  end.

(** ** The controller *)

Section Controller.

Variable h : host.

Local Open Scope monad_scope.

Definition before_validate : M frame unit :=
  doc <- get_self ;;
  desc <- lift (task_desc_short h (task doc)) ;;
  on_self (set_task_description desc) ;;
  (if truthy (cron_string doc)
   then d <- lift (get_description h (cron_string doc)) ;;
        on_self (set_schedule_description (VStr d))
   else ret tt) ;;
  (if String.eqb (run_frequency doc) "Cron Style"
   then on_self (fun d => set_minute VNone (set_hour VNone (set_month VNone
                   (set_day_of_month VNone (set_day_of_week VNone d)))))
   else ret tt) ;;
  (if String.eqb (run_frequency doc) "Hourly"
   then on_self (fun d => set_hour VNone (set_month VNone
                   (set_day_of_month VNone (set_day_of_week VNone d))))
   else ret tt) ;;
  (if String.eqb (run_frequency doc) "Daily"
   then on_self (fun d => set_month VNone
                   (set_day_of_month VNone (set_day_of_week VNone d)))
   else ret tt).

(** [self.cron_string = schedule_to_cron_string(self)] *)
Definition store_cron_string : M frame unit :=
  doc <- get_self ;;
  c <- lift (schedule_to_cron_string h doc) ;;
  on_self (set_cron_string c).

Definition validate : M frame unit :=
  doc <- get_self ;;
  if String.eqb (run_frequency doc) "Hourly" then
    lift (check_minutes (minute doc)) ;;
    store_cron_string
  else if String.eqb (run_frequency doc) "Daily" then
    lift (check_hours (hour doc)) ;;
    lift (check_minutes (minute doc)) ;;
    store_cron_string
  else if String.eqb (run_frequency doc) "Weekly" then
    lift (check_day_of_week (day_of_week doc)) ;;
    lift (check_hours (hour doc)) ;;
    lift (check_minutes (minute doc)) ;;
    store_cron_string
  else if String.eqb (run_frequency doc) "Monthly" then
    lift (check_day_of_month h (run_frequency doc) (day_of_month doc) VNone) ;;
    lift (check_hours (hour doc)) ;;
    lift (check_minutes (minute doc)) ;;
    store_cron_string
  else if String.eqb (run_frequency doc) "Yearly" then
    lift (check_day_of_month h (run_frequency doc) (day_of_month doc) (month doc)) ;;
    lift (check_hours (hour doc)) ;;
    lift (check_minutes (minute doc)) ;;
    store_cron_string
  else if String.eqb (run_frequency doc) "Cron Style" then
    _ <- lift (validate_cron_string h (py_str (cron_string doc)) None) ;;
    ret tt
  else ret tt.

(** Lines 115 to 121 of [resubmit_task_schedule]: the request and the
    reading of the response. *)
Definition resubmit_request : M frame unit :=
  doc <- get_self ;;
  emit (reload_request (name doc)) ;;
  response <- lift (reload_task_schedule h (name doc)) ;;
  if negb (truthy response) then
    raise (ConnectionError
      "Error, no response from BTU Task Scheduler daemon.  Check logs in directory '/etc/btu_scheduler.logs'")
  else
    match response with
    | VStr r =>
        if startswith "Exception while connecting" r
        then raise (ConnectionError r)
        else
          emit (print ("Response from BTU Scheduler: " ++ r)) ;;
          emit (msgprint ("Response from BTU Scheduler daemon:<br>" ++ r))
    | _ => raise (AttributeError "'int' object has no attribute 'startswith'")
    end.

Definition cancel_schedule : M frame unit :=
  doc <- get_self ;;
  emit (cancel_request (name doc)) ;;
  response <- lift (cancel_task_schedule h (name doc)) ;;
  let message := "Request = Cancel Task Schedule." ++ newline
                 ++ "Response from BTU Scheduler: " ++ py_str response in
  emit (print message) ;;
  emit (msgprint message) ;;
  on_self (set_redis_job_id "").

Definition on_trash : M frame unit := cancel_schedule.

(** [self.get_doc_before_save()]: the row as it is stored, [None] for
    a document that has no row yet. *)
Definition get_doc_before_save : M frame (option BTUTaskSchedule) :=
  fun s => (Ok (find_doc (name (self s)) (db (env s))), s).

(** [before_save] calls [resubmit_task_schedule()] with
    [autosave=False], so only the request is made. *)
Definition before_save : M frame unit :=
  doc <- get_self ;;
  if contains_char pipe (name doc) then
    raise (ValueError
      "Task Schedules cannot have the pipe character (|) in their primary key 'name'.")
  else if enabled doc then
    try_except resubmit_request
      (fun ex => emit (msgprint (exn_message ex)))
  else
    doc_orig <- get_doc_before_save ;;
    match doc_orig with
    | Some orig =>
        if negb (Bool.eqb (enabled orig) (enabled doc))
        then cancel_schedule
        else ret tt
    | None => ret tt
    end.

(** [Document.save] of the host: the hooks in the order the host runs
    them, then the write of the row. A hook that raises leaves the
    table as it was. *)
Definition save : M frame unit :=
  before_validate ;;
  validate ;;
  before_save ;;
  modify (fun s => {| self := self s;
                      env := {| db := db_update (self s) (db (env s));
                                log := log (env s) |} |}).

Definition resubmit_task_schedule (autosave : bool) : M frame unit :=
  resubmit_request ;;
  if autosave then save else ret tt.

Definition get_last_execution_results : M frame unit :=
  doc <- get_self ;;
  let key := "rq:job:" ++ redis_job_id doc in
  let status :=
    (do raw <- hget h key "status";
     match raw with
     | Some bytes => decode_utf8 h bytes
     | None => Raise (AttributeError "'NoneType' object has no attribute 'decode'")
     end)%result in
  match status with
  | Raise _ =>
      emit (msgprint ("No job information is available for Job "
                        ++ redis_job_id doc))
  | Ok job_status =>
      if String.eqb job_status "finished" then
        emit (msgprint ("Job " ++ redis_job_id doc ++ " completed successfully."))
      else
        emit (msgprint ("Job status = " ++ job_status)) ;;
        compressed_data <- lift (hget h key "exc_info") ;;
        match compressed_data with
        | Some (String c rest) =>
            text <- lift (zlib_decompress h (String c rest)) ;;
            emit (msgprint text)
        | _ =>
            emit (msgprint "No results available; job may not have been processed yet.")
        end
  end.

Definition built_in_arguments (doc : BTUTaskSchedule) : result (pyobj h) :=
  if negb (truthy (argument_overrides doc)) then Ok (py_None h)
  else literal_eval h (argument_overrides doc).

(** *** The bulk resubmission

    The local variable [doc_schedule] outlives an iteration of the
    loop, so it is part of the state, unbound at first. *)
Record bulk : Type := {
  doc_schedule : option BTUTaskSchedule;
  table : world
}.

(** Runs a method on the object bound to [doc_schedule]. *)
Definition on_doc_schedule {A : Type} (method : M frame A) : M bulk A :=
  fun b =>
    match doc_schedule b with
    | None =>
        (Raise (OtherException
           "local variable 'doc_schedule' referenced before assignment"), b)
    | Some d =>
        let (r, s) := method {| self := d; env := table b |} in
        (r, {| doc_schedule := Some (self s); table := env s |})
    end.

(** [doc_schedule = frappe.get_doc("BTU Task Schedule", id)] *)
Definition load_doc_schedule (id : string) : M bulk unit :=
  fun b =>
    match find_doc id (db (table b)) with
    | Some d => (Ok tt, {| doc_schedule := Some d; table := table b |})
    | None => (Raise (OtherException ("BTU Task Schedule " ++ id ++ " not found")), b)
    end.

Definition announce (e : event) : M bulk unit :=
  modify (fun b => {| doc_schedule := doc_schedule b;
                      table := record_event e (table b) |}).

Definition resubmit_one (id : string) : M bulk unit :=
  try_except
    (load_doc_schedule id ;;
     on_doc_schedule validate ;;
     on_doc_schedule (resubmit_task_schedule false))
    (fun ex =>
       doc <- on_doc_schedule get_self ;;
       let message := "Error from BTU Scheduler while submitting Task "
                      ++ name doc ++ " : " ++ exn_message ex in
       announce (msgprint message) ;;
       announce (print message) ;;
       on_doc_schedule (on_self (set_enabled false)) ;;
       on_doc_schedule save).

Fixpoint resubmit_each (task_schedule_ids : list string) : M bulk unit :=
  match task_schedule_ids with
  | [] => ret tt
  | id :: rest => resubmit_one id ;; resubmit_each rest
  end.

(** [frappe.db.get_all("BTU Task Schedule", filters={"enabled": True},
    pluck='name')] *)
Definition enabled_ids (rows : list BTUTaskSchedule) : list string :=
  map name (filter enabled rows).

(** The function starts with [doc_schedule] unbound and reads the
    list of identifiers once, before the loop. *)
Definition resubmit_all_task_schedules (w : world) : result unit * bulk :=
  resubmit_each (enabled_ids (db w)) {| doc_schedule := None; table := w |}.

End Controller.

(** ** A host to run the controller on

    The examples below need every function of the [host] to be given.
    The daemon answers every request, the clock is five hours behind UTC
    and the job store knows three jobs. *)

(** The pieces of [s] between the characters that [sep] picks out;
    [current] is the piece read so far. *)
Fixpoint split_on (sep : ascii -> bool) (current s : string) : list string :=
  match s with
  | EmptyString => [current]
  | String c s' =>
      if sep c then current :: split_on sep "" s'
      else split_on sep (current ++ String c "") s'
  end.

(** The white-space separated fields of [s]. *)
Definition fields_of (s : string) : list string :=
  filter (fun w => negb (String.eqb w "")) (split_on is_space "" s).

Fixpoint lower (s : string) : string :=
  match s with
  | EmptyString => EmptyString
  | String c s' => String (to_lower c) (lower s')
  end.

Definition month_names : list string :=
  ["jan"; "feb"; "mar"; "apr"; "may"; "jun";
   "jul"; "aug"; "sep"; "oct"; "nov"; "dec"].

Definition day_names : list string :=
  ["sun"; "mon"; "tue"; "wed"; "thu"; "fri"; "sat"].

(** A concrete value of a cron field: a number of the field's range or
    one of its names. *)
Definition cron_value (lo hi : Z) (names : list string) (s : string) : bool :=
  (isdigit s && (lo <=? int_of_digits s) && (int_of_digits s <=? hi))
  || existsb (String.eqb (lower s)) names.

(** A value or a range [a-b] of values. *)
Definition cron_range (lo hi : Z) (names : list string) (s : string) : bool :=
  match split_on (Ascii.eqb "-") "" s with
  | [a] => cron_value lo hi names a
  | [a; b] => cron_value lo hi names a && cron_value lo hi names b
  | _ => false
  end.

(** A range, or a range or the wildcard with a step [/n]. *)
Definition cron_item (lo hi : Z) (names : list string) (s : string) : bool :=
  match split_on (Ascii.eqb "/") "" s with
  | [r] => cron_range lo hi names r
  | [r; n] =>
      (String.eqb r "*" || cron_range lo hi names r)
      && isdigit n && (0 <? int_of_digits n)
  | _ => false
  end.

(** A cron field: the wildcard, or a list of items separated by commas. *)
Definition cron_field (lo hi : Z) (names : list string) (s : string) : bool :=
  String.eqb s "*"
  || forallb (cron_item lo hi names) (split_on (Ascii.eqb ",") "" s).

(** Five fields: minute, hour, day of the month, month, day of the week. *)
Definition cron_grammar (s : string) : bool :=
  match fields_of s with
  | [mi; hr; dom; mon; dow] =>
      cron_field 0 59 [] mi && cron_field 0 23 [] hr && cron_field 1 31 [] dom
      && cron_field 1 12 month_names mon && cron_field 0 7 day_names dow
  | _ => false
  end.

(** Modelled from the spec: [btu.validate_cron_string] lives in the
    package's [__init__.py], outside this module. The spec asks for
    exactly five white-space separated fields, minute, hour, day of the
    month, month and day of the week, each the wildcard or a concrete
    value or list of the standard cron field grammar; [cron_grammar] is
    that grammar, with ranges, steps and the names of months and days.
    The stand-in raises on an invalid string when [error_on_invalid] is
    passed as true, as the call in [schedule_to_cron_string] expects,
    and answers [False] otherwise. *)
Definition five_field_validator (s : string) (error_on_invalid : option bool)
  : result bool :=
  if cron_grammar s then Ok true
  else
    match error_on_invalid with
    | Some true =>
        Raise (OtherException ("String '" ++ s ++ "' is not a valid Unix cron string."))
    | _ => Ok false
    end.

(** What [str] prints for a float that is a multiple of 0.25, which is
    every hour corrected by a time-zone offset in quarters of an hour. *)
Definition quarter_float_str (x : float) : string :=
  match Prim2SF (PrimFloat.mul x 4) with
  | S754_zero _ => "0.0"
  | S754_infinity neg => if neg then "-inf" else "inf"
  | S754_nan => "nan"
  | S754_finite neg m e =>
      let q := if 0 <=? e then Zpos m * 2 ^ e else Zpos m / 2 ^ (- e) in
      (if neg then "-" else "") ++ str_of_Z (q / 4) ++ "."
        ++ (if q mod 4 =? 0 then "0" else if q mod 4 =? 1 then "25"
            else if q mod 4 =? 2 then "5" else "75")
  end.

Definition demo_hget (key field : string) : result (option string) :=
  if String.eqb key "rq:job:job-finished" then
    Ok (if String.eqb field "status" then Some "finished" else None)
  else if String.eqb key "rq:job:job-failed" then
    Ok (if String.eqb field "status" then Some "failed"
        else if String.eqb field "exc_info" then Some "deflate(Traceback: division by zero)"
        else None)
  else if String.eqb key "rq:job:job-queued" then
    Ok (if String.eqb field "status" then Some "queued" else None)
  else Ok None.

(** Undoes the [deflate(...)] wrapping of the demo store. *)
Definition demo_decompress (data : string) : result string :=
  if startswith "deflate(" data
  then Ok (substring 8 (String.length data - 9) data)
  else Raise (OtherException "incorrect header check").

Definition demo_literal_eval (v : value) : result value :=
  match v with
  | VStr s =>
      if isdigit s then Ok (VInt (int_of_digits s))
      else if String.eqb s "None" then Ok VNone
      else Raise (ValueError "malformed node or string")
  | _ => Raise (ValueError "malformed node or string")
  end.

Definition demo_host : host := {|
  validate_cron_string := five_field_validator;
  float_str := quarter_float_str;
  timegm_localtime := 1793797200;
  timegm_gmtime := 1793815200;
  current_year := 2026;
  task_desc_short := fun _ => Ok (VStr "Nightly export");
  get_description := fun v => Ok ("Schedule " ++ py_str v);
  reload_task_schedule := fun id => Ok (VStr ("Task Schedule " ++ id ++ " scheduled."));
  cancel_task_schedule := fun id => Ok (VStr ("Task Schedule " ++ id ++ " cancelled."));
  hget := demo_hget;
  decode_utf8 := fun bytes => Ok bytes;
  zlib_decompress := demo_decompress;
  pyobj := value;
  py_None := VNone;
  literal_eval := demo_literal_eval
|}.

(** The same host with another daemon behind it. *)
Definition with_daemon (reload cancel : string -> result value) (h : host)
  : host := {|
  validate_cron_string := validate_cron_string h;
  float_str := float_str h;
  timegm_localtime := timegm_localtime h;
  timegm_gmtime := timegm_gmtime h;
  current_year := current_year h;
  task_desc_short := task_desc_short h;
  get_description := get_description h;
  reload_task_schedule := reload;
  cancel_task_schedule := cancel;
  hget := hget h;
  decode_utf8 := decode_utf8 h;
  zlib_decompress := zlib_decompress h;
  pyobj := pyobj h;
  py_None := py_None h;
  literal_eval := literal_eval h
|}.

(** A daemon that cannot be reached: the request raises. *)
Definition daemon_down (id : string) : result value :=
  Raise (ConnectionError "Connection refused").

(** A schedule that runs at different frequencies in the examples. *)
Definition sample (id frequency : string) (hr min : value) : BTUTaskSchedule := {|
  name := id;
  task := "TASK-0001";
  task_description := VNone;
  run_frequency := frequency;
  day_of_week := VNone;
  day_of_month := VNone;
  month := VNone;
  hour := hr;
  minute := min;
  cron_string := VNone;
  schedule_description := VNone;
  enabled := true;
  redis_job_id := "";
  argument_overrides := VNone
|}.

Definition empty_world : world := {| db := []; log := [] |}.

(** The schedule of the examples, stored with a handle. *)
Definition stored_schedule : BTUTaskSchedule :=
  set_redis_job_id "rq-42" (sample "TS-0001" "Hourly" VNone (VInt 5)).

(** A schedule whose job is [job] in the demo store. *)
Definition scheduled_as (job : string) : frame :=
  {| self := set_redis_job_id job (sample "TS-0007" "Hourly" VNone (VInt 5));
     env := empty_world |}.

(** Two enabled schedules, the first one with a minute out of range. *)
Definition table_with_a_refused_schedule : world :=
  {| db := [sample "TS-A" "Hourly" VNone (VInt 75);
            sample "TS-B" "Hourly" VNone (VInt 5)];
     log := [] |}.

(** The same host with another clock. *)
Definition with_clock (local utc : Z) (h : host) : host := {|
  validate_cron_string := validate_cron_string h;
  float_str := float_str h;
  timegm_localtime := local;
  timegm_gmtime := utc;
  current_year := current_year h;
  task_desc_short := task_desc_short h;
  get_description := get_description h;
  reload_task_schedule := reload_task_schedule h;
  cancel_task_schedule := cancel_task_schedule h;
  hget := hget h;
  decode_utf8 := decode_utf8 h;
  zlib_decompress := zlib_decompress h;
  pyobj := pyobj h;
  py_None := py_None h;
  literal_eval := literal_eval h
|}.

(** A daemon that cannot be reached for one schedule and answers for
    the others. *)
Definition daemon_down_for (id : string) (request : string) : result value :=
  if String.eqb request id
  then Ok (VStr "Exception while connecting to the BTU Scheduler daemon")
  else Ok (VStr ("Task Schedule " ++ request ++ " scheduled.")).

(** Two enabled schedules that pass validation and a disabled one. *)
Definition table_of_valid_schedules : world :=
  {| db := [sample "TS-A" "Hourly" VNone (VInt 15);
            set_enabled false (sample "TS-C" "Hourly" VNone (VInt 45));
            sample "TS-B" "Hourly" VNone (VInt 5)];
     log := [] |}.

(** The same host with another job store. *)
Definition with_store (store : string -> string -> result (option string))
    (h : host) : host := {|
  validate_cron_string := validate_cron_string h;
  float_str := float_str h;
  timegm_localtime := timegm_localtime h;
  timegm_gmtime := timegm_gmtime h;
  current_year := current_year h;
  task_desc_short := task_desc_short h;
  get_description := get_description h;
  reload_task_schedule := reload_task_schedule h;
  cancel_task_schedule := cancel_task_schedule h;
  hget := store;
  decode_utf8 := decode_utf8 h;
  zlib_decompress := zlib_decompress h;
  pyobj := pyobj h;
  py_None := py_None h;
  literal_eval := literal_eval h
|}.

(** A store in which every job has failed and left a payload that is
    not compressed data. *)
Definition garbled_store (key field : string) : result (option string) :=
  if String.eqb field "status" then Ok (Some "failed")
  else Ok (Some "not compressed").

(** A table without an enabled schedule. *)
Definition table_of_disabled_schedules : world :=
  {| db := [set_enabled false (sample "TS-A" "Hourly" VNone (VInt 75));
            set_enabled false (sample "TS-B" "Hourly" VNone (VInt 5))];
     log := [] |}.

(** The corrected hour [n] in a zone [q] quarters of an hour from UTC
    is the float of [4 n - q] divided by four, bit for bit. *)
Definition quarter_hour_check (q n : Z) : bool :=
  PrimFloat.Leibniz.eqb
    (PrimFloat.sub (float_of_int n)
       (PrimFloat.div (float_of_int (900 * q)) (float_of_int 3600)))
    (PrimFloat.div (float_of_int (4 * n - q)) (float_of_int 4)).

(** ** Vocabulary of the statements *)

(** The frame [s] with [events] sent after what it has logged. *)
Definition after (events : list event) (s : frame) : frame :=
  {| self := self s;
     env := {| db := db (env s); log := (log (env s) ++ events)%list |} |}.

(** The exception [resubmit_task_schedule] raises on a reply of the
    daemon, if any (lines 115 to 119). *)
Definition submission_error (reply : result value) : option exn :=
  match reply with
  | Raise e => Some e
  | Ok (VStr r) =>
      if String.eqb r "" then
        Some (ConnectionError
          "Error, no response from BTU Task Scheduler daemon.  Check logs in directory '/etc/btu_scheduler.logs'")
      else if startswith "Exception while connecting" r
      then Some (ConnectionError r)
      else None
  | Ok VNone | Ok (VInt 0) =>
      Some (ConnectionError
        "Error, no response from BTU Task Scheduler daemon.  Check logs in directory '/etc/btu_scheduler.logs'")
  | Ok (VInt _) => Some (AttributeError "'int' object has no attribute 'startswith'")
  end.

(** What the user is shown after a request to reload: the error, or the
    response of the daemon. *)
Definition submission_messages (reply : result value) : list event :=
  match submission_error reply with
  | Some ex => [msgprint (exn_message ex)]
  | None =>
      [print ("Response from BTU Scheduler: " ++ py_str (match reply with Ok v => v | Raise _ => VNone end));
       msgprint ("Response from BTU Scheduler daemon:<br>" ++ py_str (match reply with Ok v => v | Raise _ => VNone end))]
  end.

Definition is_request (e : event) : bool :=
  match e with
  | reload_request _ | cancel_request _ => true
  | _ => false
  end.

(** Two frames with the same world and the same columns among those the
    save hook reads. *)
Definition same_record (s s' : frame) : Prop :=
  env s' = env s
  /\ name (self s') = name (self s)
  /\ enabled (self s') = enabled (self s)
  /\ redis_job_id (self s') = redis_job_id (self s)
  /\ run_frequency (self s') = run_frequency (self s).

(** The structured fields of a frame, in the order of the cron string,
    with the frequency and the stored cron string. *)
Definition schedule_fields (s : frame) : string * list value * value :=
  (run_frequency (self s),
   [minute (self s); hour (self s); day_of_month (self s);
    month (self s); day_of_week (self s)],
   cron_string (self s)).

(** The integers from [lo], [n] of them. *)
Definition Zrange (lo : Z) (n : nat) : list Z :=
  map (fun i => lo + Z.of_nat i) (seq 0 n).

(** The corrected hour, as [schedule_to_cron_string] computes it from
    the hour [n] and the two clock readings. *)
Definition corrected_hour (h : host) (n : Z) : float :=
  PrimFloat.sub (float_of_int n) (get_utc_time_diff h).


(** What a method does to a document, the world left aside. *)
Definition hook_result {A : Type} (m : M frame A) (d : BTUTaskSchedule)
  : result A * BTUTaskSchedule :=
  let (r, s) := m {| self := d; env := empty_world |} in (r, self s).

(** A method that neither reads nor changes the world. *)
Definition env_blind {A : Type} (m : M frame A) : Prop :=
  forall d w,
    m {| self := d; env := w |} =
      (fst (hook_result m d), {| self := snd (hook_result m d); env := w |}).

(** A request to reload, as opposed to a request to cancel. *)
Definition is_reload (e : event) : bool :=
  match e with reload_request _ => true | _ => false end.

(** The row that the bulk pass leaves for the enabled schedule [x], or
    [None] when the pass would stop at [x]: the schedule must pass
    [validate]; if the daemon takes the submission the row stays as it
    is; otherwise the document is disabled and saved, which needs the
    three hooks and the cancel request to go through. *)
Definition settled (h : host) (x : BTUTaskSchedule) : option BTUTaskSchedule :=
  match hook_result (validate h) x with
  | (Raise _, _) => None
  | (Ok _, x1) =>
      match submission_error (reload_task_schedule h (name x)) with
      | None => Some x
      | Some _ =>
          match hook_result (before_validate h) (set_enabled false x1) with
          | (Raise _, _) => None
          | (Ok _, x3) =>
              match hook_result (validate h) x3 with
              | (Raise _, _) => None
              | (Ok _, x4) =>
                  if contains_char pipe (name x) then None
                  else
                    match cancel_task_schedule h (name x) with
                    | Ok _ => Some (set_redis_job_id "" x4)
                    | Raise _ => None
                    end
              end
          end
      end
  end.

(** The frequencies whose cron string [validate] derives from the
    structured fields. *)
Definition structured (frequency : string) : bool :=
  existsb (String.eqb frequency) ["Hourly"; "Daily"; "Weekly"; "Monthly"; "Yearly"].


(** * Properties *)

(** ** The monad *)

Lemma bind_ok {S A B : Type} (m : M S A) (k : A -> M S B) (s s' : S) (a : A) :
  m s = (Ok a, s') -> bind m k s = k a s'.
Proof. intros E. unfold bind. now rewrite E. Qed.

Lemma bind_raise {S A B : Type} (m : M S A) (k : A -> M S B) (s s' : S) (e : exn) :
  m s = (Raise e, s') -> bind m k s = (Raise e, s').
Proof. intros E. unfold bind. now rewrite E. Qed.

Lemma try_except_ok {S A : Type} (m : M S A) (k : exn -> M S A) (s s' : S) (a : A) :
  m s = (Ok a, s') -> try_except m k s = (Ok a, s').
Proof. intros E. unfold try_except. now rewrite E. Qed.

Lemma try_except_raise {S A : Type} (m : M S A) (k : exn -> M S A) (s s' : S) (e : exn) :
  m s = (Raise e, s') -> try_except m k s = k e s'.
Proof. intros E. unfold try_except. now rewrite E. Qed.

Lemma frame_eta (s : frame) :
  {| self := self s; env := env s |} = s.
Proof. now destruct s. Qed.

Lemma after_nil (s : frame) : after [] s = s.
Proof.
  destruct s as [d [rows l]]. unfold after. cbn. now rewrite app_nil_r.
Qed.

(** ** The save hook and the daemon *)

Section Save_hook.

Variable h : host.

Lemma resubmit_request_spec (s : frame) :
  resubmit_request h s =
    match submission_error (reload_task_schedule h (name (self s))) with
    | Some ex => (Raise ex, after [reload_request (name (self s))] s)
    | None =>
        (Ok tt, after (reload_request (name (self s))
                         :: submission_messages (reload_task_schedule h (name (self s)))) s)
    end.
Proof.
  destruct s as [d [rows l]].
  unfold resubmit_request, submission_messages, submission_error, after,
    bind, get_self, emit, modify, lift, raise, record_event; cbn.
  destruct (reload_task_schedule h (name d)) as [[ | n | r] | e]; cbn;
    try reflexivity.
  - destruct n; reflexivity.
  - destruct (String.eqb r ""); cbn; [reflexivity|].
    destruct (startswith "Exception while connecting" r); cbn; [reflexivity|].
    now rewrite <- !app_assoc.
Qed.

Lemma submission_messages_no_request (reply : result value) :
  forallb (fun e => negb (is_request e)) (submission_messages reply) = true.
Proof.
  unfold submission_messages. now destruct (submission_error reply).
Qed.

Lemma cancel_schedule_spec (s : frame) :
  cancel_schedule h s =
    match cancel_task_schedule h (name (self s)) with
    | Ok response =>
        let message := "Request = Cancel Task Schedule." ++ newline
                       ++ "Response from BTU Scheduler: " ++ py_str response in
        (Ok tt,
         {| self := set_redis_job_id "" (self s);
            env := env (after [cancel_request (name (self s));
                               print message; msgprint message] s) |})
    | Raise ex => (Raise ex, after [cancel_request (name (self s))] s)
    end.
Proof.
  destruct s as [d [rows l]].
  unfold cancel_schedule, after, bind, get_self, emit, modify, lift,
    on_self, record_event; cbn.
  destruct (cancel_task_schedule h (name d)) as [response | ex]; cbn;
    [|reflexivity].
  now rewrite <- !app_assoc.
Qed.

End Save_hook.

(** ** The hooks that run before [before_save] *)

Section Validation_hooks.

Variable h : host.

Lemma store_cron_string_spec (s : frame) :
  store_cron_string h s =
    match schedule_to_cron_string h (self s) with
    | Ok c => (Ok tt, {| self := set_cron_string c (self s); env := env s |})
    | Raise e => (Raise e, s)
    end.
Proof.
  unfold store_cron_string, bind, get_self, lift, on_self, modify.
  now destruct (schedule_to_cron_string h (self s)).
Qed.

(** A check that passes lets the rest of the method run on the same
    frame; one that raises ends it there. *)
Lemma lift_check {A : Type} (r : result unit) (k : M frame A) (s : frame) :
  bind (lift r) (fun _ => k) s =
    match r with Ok _ => k s | Raise e => (Raise e, s) end.
Proof. unfold bind, lift. now destruct r. Qed.

Lemma same_record_refl (s : frame) : same_record s s.
Proof. repeat split. Qed.

Lemma same_record_trans (s1 s2 s3 : frame) :
  same_record s1 s2 -> same_record s2 s3 -> same_record s1 s3.
Proof.
  unfold same_record. intros (A1 & A2 & A3 & A4 & A5) (B1 & B2 & B3 & B4 & B5).
  repeat split; congruence.
Qed.

Lemma before_validate_same_record (s : frame) :
  same_record s (snd (before_validate h s)).
Proof.
  destruct s as [d w].
  unfold before_validate, bind, get_self, lift, on_self, modify, ret; cbn.
  destruct (task_desc_short h (task d)) as [desc | e]; cbn;
    [|apply same_record_refl].
  destruct (truthy (cron_string d)); cbn;
    [destruct (get_description h (cron_string d)); cbn|];
    destruct (String.eqb (run_frequency d) "Cron Style"),
             (String.eqb (run_frequency d) "Hourly"),
             (String.eqb (run_frequency d) "Daily"); cbn;
    repeat split.
Qed.

Lemma same_record_check (r : result unit) (k : M frame unit) (s : frame) :
  same_record s (snd (k s)) ->
  same_record s (snd (bind (lift r) (fun _ => k) s)).
Proof.
  intros K. rewrite lift_check. destruct r; [exact K|apply same_record_refl].
Qed.

Lemma same_record_store (s : frame) :
  same_record s (snd (store_cron_string h s)).
Proof.
  rewrite store_cron_string_spec.
  destruct (schedule_to_cron_string h (self s)); repeat split.
Qed.

Lemma validate_same_record (s : frame) :
  same_record s (snd (validate h s)).
Proof.
  unfold validate. rewrite (bind_ok get_self _ s s (self s)) by reflexivity.
  repeat match goal with
  | |- context [if String.eqb ?a ?b then _ else _] =>
      destruct (String.eqb a b)
  end;
  repeat apply same_record_check;
  try apply same_record_store;
  try apply same_record_refl.
  unfold bind, lift, ret.
  destruct (validate_cron_string h (py_str (cron_string (self s))) None);
    apply same_record_refl.
Qed.

End Validation_hooks.

(** ** Saving a schedule *)

Section Saving.

Variable h : host.

(** C9. A schedule whose name contains the pipe character is refused
    by [before_save] with a [ValueError], whatever its [enabled] flag
    and whether or not it has a row already, and the refusal comes
    before anything else happens: the document, the table and the log
    of requests are as they were. The whole [save] fails too, without a
    request to the daemon and without a write to the table. *)
Theorem pipe_in_name_is_refused (s : frame) :
  contains_char pipe (name (self s)) = true ->
  before_save h s =
    (Raise (ValueError
       "Task Schedules cannot have the pipe character (|) in their primary key 'name'."),
     s)
  /\ raised (fst (save h s)) = true
  /\ env (snd (save h s)) = env s.
Proof.
  intros P.
  assert (B : forall s', name (self s') = name (self s) ->
              before_save h s' =
                (Raise (ValueError
                   "Task Schedules cannot have the pipe character (|) in their primary key 'name'."),
                 s')).
  { intros s' N. unfold before_save.
    rewrite (bind_ok get_self _ s' s' (self s')) by reflexivity.
    now rewrite N, P. }
  split; [now apply B|].
  unfold save.
  pose proof (before_validate_same_record h s) as V1.
  destruct (before_validate h s) as [[[]|e1] s1] eqn:E1; cbn [snd] in V1.
  2:{ rewrite (bind_raise _ _ _ _ _ E1). split; [reflexivity|apply V1]. }
  rewrite (bind_ok _ _ _ _ _ E1).
  pose proof (validate_same_record h s1) as V2.
  destruct (validate h s1) as [[[]|e2] s2] eqn:E2; cbn [snd] in V2.
  2:{ rewrite (bind_raise _ _ _ _ _ E2). split; [reflexivity|].
      cbn. destruct V1 as [V1 _], V2 as [V2 _]. congruence. }
  rewrite (bind_ok _ _ _ _ _ E2).
  pose proof (same_record_trans s s1 s2 V1 V2) as (W1 & W2 & _).
  rewrite (bind_raise _ _ _ _ _ (B s2 W2)). split; [reflexivity|exact W1].
Qed.

(** C1, as the code has it. A schedule without a pipe in its name that
    is saved while enabled sends exactly one reload request.
    [before_save] then returns normally whatever the daemon answered:
    a failed submission is shown to the user with [msgprint] and
    nothing else happens, a successful one prints the response. The
    document is left as it was, so [enabled] stays true and
    [redis_job_id] keeps its value: no handle is recorded. *)
Theorem save_while_enabled_submits_once (s : frame) :
  contains_char pipe (name (self s)) = false ->
  enabled (self s) = true ->
  let reply := reload_task_schedule h (name (self s)) in
  before_save h s =
    (Ok tt, after (reload_request (name (self s)) :: submission_messages reply) s)
  /\ forallb (fun e => negb (is_request e)) (submission_messages reply) = true
  /\ (forall ex, submission_error reply = Some ex ->
        submission_messages reply = [msgprint (exn_message ex)])
  /\ enabled (self (snd (before_save h s))) = true
  /\ redis_job_id (self (snd (before_save h s))) = redis_job_id (self s).
Proof.
  intros P E reply.
  assert (B : before_save h s =
                (Ok tt, after (reload_request (name (self s))
                                 :: submission_messages reply) s)).
  { unfold before_save.
    rewrite (bind_ok get_self _ s s (self s)) by reflexivity.
    rewrite P, E. unfold try_except. rewrite resubmit_request_spec.
    fold reply. unfold submission_messages.
    destruct (submission_error reply) as [ex|]; [|reflexivity].
    destruct s as [d [rows l]].
    unfold emit, modify, after, record_event; cbn.
    now rewrite <- app_assoc. }
  rewrite B. cbn [snd after self].
  repeat split; auto using submission_messages_no_request.
  intros ex X. unfold submission_messages. now rewrite X.
Qed.

(** C2, as the code has it. Disabling a schedule that is stored as
    enabled sends one cancel request. When the request returns, with
    whatever response, [redis_job_id] is emptied; when the request
    raises, the exception leaves [before_save] and the document keeps
    its handle. *)
Theorem disabling_clears_the_handle_when_cancel_returns
    (s : frame) (orig : BTUTaskSchedule) :
  contains_char pipe (name (self s)) = false ->
  enabled (self s) = false ->
  find_doc (name (self s)) (db (env s)) = Some orig ->
  enabled orig = true ->
  match cancel_task_schedule h (name (self s)) with
  | Ok response =>
      fst (before_save h s) = Ok tt
      /\ redis_job_id (self (snd (before_save h s))) = ""
      /\ filter is_request (log (env (snd (before_save h s)))) =
           (filter is_request (log (env s)) ++ [cancel_request (name (self s))])%list
  | Raise ex =>
      before_save h s = (Raise ex, after [cancel_request (name (self s))] s)
  end.
Proof.
  intros P E F O.
  assert (B : before_save h s = cancel_schedule h s).
  { unfold before_save.
    rewrite (bind_ok get_self _ s s (self s)) by reflexivity.
    rewrite P, E.
    rewrite (bind_ok (get_doc_before_save) _ s s (Some orig))
      by (unfold get_doc_before_save; now rewrite F).
    now rewrite O. }
  rewrite B, cancel_schedule_spec.
  destruct (cancel_task_schedule h (name (self s))) as [response | ex];
    [|reflexivity].
  cbn. repeat split.
  rewrite filter_app. reflexivity.
Qed.

End Saving.

Lemma pipe_in_name_is_refused_witness :
  before_save demo_host
    {| self := sample "TS|1" "Hourly" VNone (VInt 5); env := empty_world |} =
    (Raise (ValueError
       "Task Schedules cannot have the pipe character (|) in their primary key 'name'."),
     {| self := sample "TS|1" "Hourly" VNone (VInt 5); env := empty_world |})
  /\ raised (fst (save demo_host
       {| self := sample "TS|1" "Hourly" VNone (VInt 5); env := empty_world |})) = true
  /\ env (snd (save demo_host
       {| self := sample "TS|1" "Hourly" VNone (VInt 5); env := empty_world |})) =
     empty_world.
Proof.
  apply (pipe_in_name_is_refused demo_host
           {| self := sample "TS|1" "Hourly" VNone (VInt 5); env := empty_world |}).
  reflexivity.
Defined.

(** C1 as stated fails: the daemon accepts the submission and the
    document still has no handle. *)
Lemma submission_records_no_handle :
  ~ (forall (h : host) (s : frame),
       enabled (self s) = true ->
       submission_error (reload_task_schedule h (name (self s))) = None ->
       fst (before_save h s) = Ok tt
       /\ redis_job_id (self (snd (before_save h s))) <> "").
Proof.
  intros C.
  destruct (C demo_host
              {| self := sample "TS-0001" "Hourly" VNone (VInt 5);
                 env := empty_world |}) as [_ N]; [reflexivity|reflexivity|].
  apply N. reflexivity.
Qed.

Lemma save_while_enabled_submits_once_witness :
  before_save (with_daemon daemon_down daemon_down demo_host)
    {| self := stored_schedule; env := {| db := [stored_schedule]; log := [] |} |} =
    (Ok tt,
     {| self := stored_schedule;
        env := {| db := [stored_schedule];
                  log := [reload_request "TS-0001"; msgprint "Connection refused"] |} |}).
Proof.
  apply (save_while_enabled_submits_once
           (with_daemon daemon_down daemon_down demo_host)
           {| self := stored_schedule;
              env := {| db := [stored_schedule]; log := [] |} |});
    reflexivity.
Defined.

(** C2 as stated fails: the cancel request raises and the handle is
    still there. *)
Lemma handle_survives_a_raising_cancel :
  ~ (forall (h : host) (s : frame) (orig : BTUTaskSchedule),
       enabled (self s) = false ->
       find_doc (name (self s)) (db (env s)) = Some orig ->
       enabled orig = true ->
       redis_job_id (self (snd (before_save h s))) = "").
Proof.
  intros C.
  specialize (C (with_daemon daemon_down daemon_down demo_host)
                {| self := set_enabled false stored_schedule;
                   env := {| db := [stored_schedule]; log := [] |} |}
                stored_schedule eq_refl eq_refl eq_refl).
  discriminate C.
Qed.

Lemma disabling_clears_the_handle_when_cancel_returns_witness :
  fst (before_save demo_host
         {| self := set_enabled false stored_schedule;
            env := {| db := [stored_schedule]; log := [] |} |}) = Ok tt
  /\ redis_job_id (self (snd (before_save demo_host
         {| self := set_enabled false stored_schedule;
            env := {| db := [stored_schedule]; log := [] |} |}))) = ""
  /\ filter is_request (log (env (snd (before_save demo_host
         {| self := set_enabled false stored_schedule;
            env := {| db := [stored_schedule]; log := [] |} |})))) =
     [cancel_request "TS-0001"].
Proof.
  apply (disabling_clears_the_handle_when_cancel_returns demo_host
           {| self := set_enabled false stored_schedule;
              env := {| db := [stored_schedule]; log := [] |} |}
           stored_schedule); reflexivity.
Defined.

(** ** Reading numerals *)

Lemma digit_is_no_space (c : ascii) : is_digit c = true -> is_space c = false.
Proof.
  destruct c as [[] [] [] [] [] [] [] []]; cbn; intros D;
    try reflexivity; discriminate D.
Qed.

Lemma span_all_digits (s : string) :
  all_digits s = true -> span_digits s = (s, EmptyString).
Proof.
  induction s as [|c s IH]; cbn; [reflexivity|].
  intros D. apply andb_true_iff in D as [Dc Ds].
  now rewrite Dc, (IH Ds).
Qed.

(** [int] on a text of digits reads the numeral. *)
Lemma int_of_text_digits (s : string) :
  isdigit s = true -> int_of_text s = Ok (int_of_digits s).
Proof.
  unfold isdigit. intros D. apply andb_true_iff in D as [N D].
  destruct s as [|c s]; [discriminate N|]. clear N.
  cbn in D. apply andb_true_iff in D as [Dc Ds].
  unfold int_of_text. cbn [lstrip]. rewrite (digit_is_no_space c Dc).
  assert (Sign : (match String c s with
                  | String "-"%char t' => (-1, t')
                  | String "+"%char t' => (1, t')
                  | _ => (1, String c s)
                  end) = (1, String c s)).
  { destruct c as [[] [] [] [] [] [] [] []]; try reflexivity; discriminate Dc. }
  rewrite Sign.
  rewrite (span_all_digits (String c s)) by (cbn; now rewrite Dc, Ds).
  cbn [String.eqb negb all_spaces andb].
  now rewrite Z.mul_1_l.
Qed.

(** ** Translating the fields *)

Section Translation.

Variable h : host.

Lemma before_validate_returns (s : frame) (desc : value) :
  task_desc_short h (task (self s)) = Ok desc ->
  (truthy (cron_string (self s)) = true ->
   raised (get_description h (cron_string (self s))) = false) ->
  fst (before_validate h s) = Ok tt.
Proof.
  intros T G. destruct s as [d w]. cbn in T, G.
  unfold before_validate, bind, get_self, lift, on_self, modify, ret; cbn.
  rewrite T; cbn.
  destruct (truthy (cron_string d)); cbn.
  - specialize (G eq_refl).
    destruct (get_description h (cron_string d)); [|discriminate G]; cbn.
    destruct (String.eqb (run_frequency d) "Cron Style"),
             (String.eqb (run_frequency d) "Hourly"),
             (String.eqb (run_frequency d) "Daily"); reflexivity.
  - destruct (String.eqb (run_frequency d) "Cron Style"),
             (String.eqb (run_frequency d) "Hourly"),
             (String.eqb (run_frequency d) "Daily"); reflexivity.
Qed.

(** What a completed [before_validate] leaves in the structured fields,
    frequency by frequency. *)
Lemma before_validate_fields (s : frame) :
  fst (before_validate h s) = Ok tt ->
  schedule_fields (snd (before_validate h s)) =
    (run_frequency (self s),
     if String.eqb (run_frequency (self s)) "Cron Style"
     then [VNone; VNone; VNone; VNone; VNone]
     else if String.eqb (run_frequency (self s)) "Hourly"
     then [minute (self s); VNone; VNone; VNone; VNone]
     else if String.eqb (run_frequency (self s)) "Daily"
     then [minute (self s); hour (self s); VNone; VNone; VNone]
     else [minute (self s); hour (self s); day_of_month (self s);
           month (self s); day_of_week (self s)],
     cron_string (self s)).
Proof.
  destruct s as [d w].
  unfold before_validate, bind, get_self, lift, on_self, modify, ret; cbn.
  destruct (task_desc_short h (task d)) as [desc | e]; cbn; [|discriminate].
  destruct (truthy (cron_string d)); cbn;
    [destruct (get_description h (cron_string d)); cbn; [|discriminate]|];
    intros _;
    destruct (String.eqb (run_frequency d) "Cron Style") eqn:C;
    destruct (String.eqb (run_frequency d) "Hourly") eqn:H;
    destruct (String.eqb (run_frequency d) "Daily") eqn:D;
    try reflexivity;
    repeat match goal with
    | E : String.eqb _ _ = true |- _ => apply String.eqb_eq in E
    end; congruence.
Qed.

Lemma validate_hourly (s : frame) :
  run_frequency (self s) = "Hourly" ->
  validate h s =
    match check_minutes (minute (self s)) with
    | Ok _ => store_cron_string h s
    | Raise e => (Raise e, s)
    end.
Proof.
  intros F. unfold validate.
  rewrite (bind_ok get_self _ s s (self s)) by reflexivity.
  rewrite F. cbn [String.eqb Ascii.eqb Bool.eqb]. apply lift_check.
Qed.

Lemma validate_cron_style (s : frame) :
  run_frequency (self s) = "Cron Style" ->
  validate h s =
    match validate_cron_string h (py_str (cron_string (self s))) None with
    | Ok _ => (Ok tt, s)
    | Raise e => (Raise e, s)
    end.
Proof.
  intros F. unfold validate.
  rewrite (bind_ok get_self _ s s (self s)) by reflexivity.
  rewrite F. cbn [String.eqb Ascii.eqb Bool.eqb].
  unfold bind, lift, ret.
  now destruct (validate_cron_string h (py_str (cron_string (self s))) None).
Qed.

(** The translation of a schedule whose fields are [fields], when its
    frequency is not Cron Style: the fields, the join, the check. *)
Lemma schedule_to_cron_string_fields (doc : BTUTaskSchedule) (fields : list value)
    (text : string) :
  String.eqb (run_frequency doc) "Cron Style" = false ->
  cron_fields h doc = Ok fields ->
  join " " fields = Ok text ->
  schedule_to_cron_string h doc =
    match validate_cron_string h text (Some true) with
    | Ok _ => Ok (VStr text)
    | Raise e => Raise e
    end.
Proof.
  intros F C J. unfold schedule_to_cron_string. rewrite F, C. cbn [rbind].
  rewrite J. cbn [rbind].
  now destruct (validate_cron_string h text (Some true)).
Qed.

(** C3, the minute zero. The message of [check_minutes] gives 0 to 59 as
    the range of a minute, and the comparison accepts 0; the test
    [not minute] that comes first refuses it, so an Hourly schedule at
    minute 0 does not pass [validate]. *)
Theorem hourly_minute_zero_is_refused (s : frame) :
  run_frequency (self s) = "Hourly" ->
  minute (self s) = VInt 0 ->
  check_minutes (VInt 0) = Raise (ValueError "Minute value must be between 0 and 59")
  /\ validate h s = (Raise (ValueError "Minute value must be between 0 and 59"), s).
Proof.
  intros F Mi. split; [reflexivity|].
  rewrite (validate_hourly s F), Mi. reflexivity.
Qed.

(** X24. The other minutes: at every minute from 1 to 59 an Hourly schedule
    passes both hooks and its cron string is the minute followed by four
    wildcards, provided the grammar check takes that string. *)
Lemma hourly_cron_string (s : frame) (m : Z) :
  run_frequency (self s) = "Hourly" ->
  minute (self s) = VInt m ->
  1 <= m <= 59 ->
  fst (before_validate h s) = Ok tt ->
  raised (validate_cron_string h (str_of_Z m ++ " * * * *") (Some true)) = false ->
  let s1 := snd (before_validate h s) in
  validate h s1 =
    (Ok tt, {| self := set_cron_string (VStr (str_of_Z m ++ " * * * *")) (self s1);
               env := env s1 |}).
Proof.
  intros F Mi R B V s1.
  pose proof (before_validate_fields s B) as Fs. fold s1 in Fs.
  unfold schedule_fields in Fs. rewrite F in Fs. cbn in Fs.
  injection Fs as F1 M1 H1 D1 Mo1 W1 _.
  rewrite (validate_hourly s1 F1), M1, Mi.
  assert (C : check_minutes (VInt m) = Ok tt).
  { unfold check_minutes, truthy.
    replace (m =? 0) with false by (symmetry; apply Z.eqb_neq; lia).
    replace (0 <=? m) with true by (symmetry; apply Z.leb_le; lia).
    replace (m <? 60) with true by (symmetry; apply Z.ltb_lt; lia).
    reflexivity. }
  rewrite C, store_cron_string_spec.
  rewrite (schedule_to_cron_string_fields (self s1)
             [VStr (str_of_Z m); VStr "*"; VStr "*"; VStr "*"; VStr "*"]
             (str_of_Z m ++ " * * * *")).
  - destruct (validate_cron_string h (str_of_Z m ++ " * * * *") (Some true));
      [reflexivity|discriminate V].
  - now rewrite F1.
  - unfold cron_fields. rewrite M1, H1, D1, Mo1, W1, Mi. reflexivity.
  - reflexivity.
Qed.

(** C4, the frequencies that are not cleared. [before_validate] clears
    fields for Cron Style, Hourly and Daily only. A Weekly schedule that
    still carries a day of the month and a month keeps both, and both
    reach the cron expression: the third and fourth fields are [15] and
    [Jan], not wildcards. *)
Theorem weekly_keeps_day_of_month_and_month :
  let doc := set_day_of_week (VStr "Monday")
               (set_day_of_month (VStr "15")
                  (set_month (VStr "Jan")
                     (sample "TS-0002" "Weekly" (VStr "9") (VInt 30)))) in
  let s1 := snd (before_validate h {| self := doc; env := empty_world |}) in
  let hour_field :=
    float_str h (PrimFloat.sub (float_of_int 9) (get_utc_time_diff h)) in
  day_of_month (self s1) = VStr "15"
  /\ month (self s1) = VStr "Jan"
  /\ cron_fields h (self s1) =
       Ok [VStr "30"; VStr hour_field; VStr "15"; VStr "Jan"; VStr "Mon"]
  /\ schedule_to_cron_string h (self s1) =
       match validate_cron_string h ("30 " ++ hour_field ++ " 15 Jan Mon") (Some true) with
       | Ok _ => Ok (VStr ("30 " ++ hour_field ++ " 15 Jan Mon"))
       | Raise e => Raise e
       end.
Proof.
  intros doc s1 hour_field.
  assert (S1 : self s1 = doc \/ self s1 = set_task_description
                 (match task_desc_short h "TASK-0001" with Ok v => v | _ => VNone end) doc).
  { unfold s1, before_validate, bind, get_self, lift, on_self, modify, ret; cbn.
    destruct (task_desc_short h "TASK-0001"); cbn; auto. }
  assert (C : cron_fields h (self s1) =
                Ok [VStr "30"; VStr hour_field; VStr "15"; VStr "Jan"; VStr "Mon"])
    by (destruct S1 as [-> | ->]; reflexivity).
  repeat split; try exact C; destruct S1 as [-> | ->]; reflexivity.
Qed.

(** Weekly, Monthly, Yearly and any other frequency that is not one of
    the three that are cleared: every structured field is kept. *)
Lemma uncleared_frequencies_keep_every_field (s : frame) :
  run_frequency (self s) <> "Cron Style" ->
  run_frequency (self s) <> "Hourly" ->
  run_frequency (self s) <> "Daily" ->
  fst (before_validate h s) = Ok tt ->
  schedule_fields (snd (before_validate h s)) = schedule_fields s.
Proof.
  intros C H D B. rewrite (before_validate_fields s B).
  apply String.eqb_neq in C, H, D. now rewrite C, H, D.
Qed.

End Translation.

(** ** The hour and the time zone *)

Lemma In_Zrange (lo k : Z) (n : nat) :
  lo <= k < lo + Z.of_nat n -> In k (Zrange lo n).
Proof.
  intros R. unfold Zrange. apply in_map_iff.
  exists (Z.to_nat (k - lo)). split; [lia|].
  apply in_seq. lia.
Qed.



Section Daily.

Variable h : host.


End Daily.

(** ** Cron Style *)

Section Cron_style.

Variable h : host.

(** For Cron Style the translation is the stored cron string, unchanged
    and unchecked; so storing the translation again changes nothing. *)
Lemma cron_style_translation_is_identity (doc : BTUTaskSchedule) :
  run_frequency doc = "Cron Style" ->
  schedule_to_cron_string h doc = Ok (cron_string doc).
Proof. intros F. unfold schedule_to_cron_string. now rewrite F. Qed.

Lemma cron_style_translation_is_idempotent (s : frame) :
  run_frequency (self s) = "Cron Style" ->
  store_cron_string h s = (Ok tt, s)
  /\ bind (store_cron_string h) (fun _ => store_cron_string h) s = (Ok tt, s).
Proof.
  intros F.
  assert (O : store_cron_string h s = (Ok tt, s)).
  { rewrite store_cron_string_spec, (cron_style_translation_is_identity _ F).
    now destruct s as [[] w]. }
  split; [exact O|]. now rewrite (bind_ok _ _ _ _ _ O).
Qed.

(** C8, the verdict of the grammar check. [validate] calls
    [validate_cron_string] on the stored string without
    [error_on_invalid] and drops what it returns. When the check answers
    [False] instead of raising, a Cron Style schedule whose string is not
    a cron expression passes [validate], and the translation hands the
    same string on. *)
Theorem cron_style_verdict_is_dropped (s : frame) :
  run_frequency (self s) = "Cron Style" ->
  validate_cron_string h (py_str (cron_string (self s))) None = Ok false ->
  validate h s = (Ok tt, s)
  /\ schedule_to_cron_string h (self s) = Ok (cron_string (self s)).
Proof.
  intros F V. split.
  - now rewrite (validate_cron_style h s F), V.
  - now apply cron_style_translation_is_identity.
Qed.

(** [validate] refuses a Cron Style schedule exactly when the call of
    the grammar check raises. *)
Lemma cron_style_refused_iff_check_raises (s : frame) :
  run_frequency (self s) = "Cron Style" ->
  raised (fst (validate h s)) =
  raised (validate_cron_string h (py_str (cron_string (self s))) None).
Proof.
  intros F. rewrite (validate_cron_style h s F).
  now destruct (validate_cron_string h (py_str (cron_string (self s))) None).
Qed.

End Cron_style.

(** ** The translation on the demo host *)

Lemma hourly_minute_zero_is_refused_witness :
  validate demo_host
    {| self := sample "TS-0004" "Hourly" VNone (VInt 0); env := empty_world |} =
    (Raise (ValueError "Minute value must be between 0 and 59"),
     {| self := sample "TS-0004" "Hourly" VNone (VInt 0); env := empty_world |}).
Proof.
  apply (hourly_minute_zero_is_refused demo_host
           {| self := sample "TS-0004" "Hourly" VNone (VInt 0);
              env := empty_world |}); reflexivity.
Defined.

Example hourly_at_minute_7 :
  cron_string (self (snd (save demo_host
    {| self := sample "TS-0004" "Hourly" VNone (VInt 7); env := empty_world |}))) =
  VStr "7 * * * *".
Proof. reflexivity. Qed.



(** The grammar of the hour field: 14 is an hour, 28 is not, and the
    text of a float is not. *)
Example hours_of_the_cron_grammar :
  map cron_grammar ["30 14 * * *"; "30 28 * * *"; "30 14.0 * * *"; "30 28.0 * * *"] =
  [true; false; false; false].
Proof. reflexivity. Qed.

(** Five hours ahead of UTC the hour 0 becomes -5: the correction is
    not reduced modulo 24 on either side. *)
Example corrected_hour_is_not_wrapped :
  corrected_hour demo_host 23 = 28%float
  /\ corrected_hour (with_clock 1793833200 1793815200 demo_host) 0 = (-5)%float.
Proof. split; reflexivity. Qed.

Lemma cron_style_verdict_is_dropped_witness :
  validate demo_host
    {| self := sample "TS-0006" "Cron Style" VNone VNone; env := empty_world |} =
    (Ok tt, {| self := sample "TS-0006" "Cron Style" VNone VNone; env := empty_world |})
  /\ schedule_to_cron_string demo_host (sample "TS-0006" "Cron Style" VNone VNone) =
     Ok VNone.
Proof.
  apply (cron_style_verdict_is_dropped demo_host
           {| self := sample "TS-0006" "Cron Style" VNone VNone;
              env := empty_world |}); reflexivity.
Defined.

(** A text that is no cron expression goes through the whole [save]. *)
Example cron_style_text_is_saved :
  let doc := set_cron_string (VStr "every day at noon")
               (sample "TS-0006" "Cron Style" VNone VNone) in
  fst (save demo_host {| self := doc; env := empty_world |}) = Ok tt
  /\ map cron_string (db (env (snd (save demo_host {| self := doc; env := empty_world |}))))
     = [VStr "every day at noon"].
Proof. split; reflexivity. Qed.

(** ** The last execution results *)

Section Execution_results.

Variable h : host.

(** C7. With a status on record for the job: a finished job is
    reported as completed and nothing else is read or shown; any other
    status is shown, and then either the payload, decompressed, as it
    is, or, when the job has no payload (none, or an empty one), the
    notice that no results are available. The method returns [None] in
    every case; what it reports goes through [msgprint]. *)
Theorem last_execution_results_report (s : frame) (raw job_status : string) :
  hget h ("rq:job:" ++ redis_job_id (self s)) "status" = Ok (Some raw) ->
  decode_utf8 h raw = Ok job_status ->
  let key := "rq:job:" ++ redis_job_id (self s) in
  (job_status = "finished" ->
   get_last_execution_results h s =
     (Ok tt, after [msgprint ("Job " ++ redis_job_id (self s)
                                ++ " completed successfully.")] s))
  /\ (job_status <> "finished" ->
      forall data text,
        hget h key "exc_info" = Ok (Some data) ->
        data <> "" ->
        zlib_decompress h data = Ok text ->
        get_last_execution_results h s =
          (Ok tt, after [msgprint ("Job status = " ++ job_status); msgprint text] s))
  /\ (job_status <> "finished" ->
      hget h key "exc_info" = Ok None \/ hget h key "exc_info" = Ok (Some "") ->
      get_last_execution_results h s =
        (Ok tt, after [msgprint ("Job status = " ++ job_status);
                       msgprint "No results available; job may not have been processed yet."] s)).
Proof.
  intros St De key.
  assert (Head :
            get_last_execution_results h s =
              if String.eqb job_status "finished"
              then emit (msgprint ("Job " ++ redis_job_id (self s)
                                     ++ " completed successfully.")) s
              else bind (emit (msgprint ("Job status = " ++ job_status)))
                     (fun _ =>
                        bind (lift (hget h key "exc_info"))
                          (fun compressed_data =>
                             match compressed_data with
                             | Some (String c rest) =>
                                 bind (lift (zlib_decompress h (String c rest)))
                                   (fun text => emit (msgprint text))
                             | _ => emit (msgprint
                                 "No results available; job may not have been processed yet.")
                             end)) s).
  { unfold get_last_execution_results.
    rewrite (bind_ok get_self _ s s (self s)) by reflexivity.
    rewrite St. cbn [rbind]. rewrite De.
    now destruct (String.eqb job_status "finished"). }
  subst key. rewrite Head. clear Head St De.
  destruct s as [d [rows l]]. cbn [self redis_job_id] in *.
  repeat split.
  - intros ->. reflexivity.
  - intros NF data text P NE Z.
    apply String.eqb_neq in NF. rewrite NF.
    unfold bind, emit, modify, lift, after, record_event.
    cbn [fst snd self env db log]. rewrite P.
    destruct data as [|c rest]; [congruence|].
    rewrite Z. cbn [self env db log]. now rewrite <- app_assoc.
  - intros NF P.
    apply String.eqb_neq in NF. rewrite NF.
    unfold bind, emit, modify, lift, after, record_event.
    cbn [fst snd self env db log].
    destruct P as [-> | ->]; cbn [self env db log]; now rewrite <- app_assoc.
Qed.

(** Without a status on record the method says so and stops. *)
Lemma last_execution_results_unknown_job (s : frame) :
  hget h ("rq:job:" ++ redis_job_id (self s)) "status" = Ok None ->
  get_last_execution_results h s =
    (Ok tt, after [msgprint ("No job information is available for Job "
                               ++ redis_job_id (self s))] s).
Proof.
  intros St. unfold get_last_execution_results.
  rewrite (bind_ok get_self _ s s (self s)) by reflexivity.
  rewrite St. reflexivity.
Qed.

(** C10. [built_in_arguments] gives [None] for an unset or empty
    [argument_overrides] and calls nothing; for any other text it is
    what [ast.literal_eval] makes of the text, its exception included. *)
Theorem built_in_arguments_cases (doc : BTUTaskSchedule) :
  (argument_overrides doc = VNone \/ argument_overrides doc = VStr "" ->
   built_in_arguments h doc = Ok (py_None h))
  /\ (forall text, argument_overrides doc = VStr text -> text <> "" ->
      built_in_arguments h doc = literal_eval h (VStr text)).
Proof.
  unfold built_in_arguments. split.
  - intros [-> | ->]; reflexivity.
  - intros text -> NE. apply String.eqb_neq in NE. cbn. now rewrite NE.
Qed.

End Execution_results.

Lemma last_execution_results_report_witness :
  log (env (snd (get_last_execution_results demo_host (scheduled_as "job-finished")))) =
    [msgprint "Job job-finished completed successfully."]
  /\ log (env (snd (get_last_execution_results demo_host (scheduled_as "job-failed")))) =
    [msgprint "Job status = failed"; msgprint "Traceback: division by zero"]
  /\ log (env (snd (get_last_execution_results demo_host (scheduled_as "job-queued")))) =
    [msgprint "Job status = queued";
     msgprint "No results available; job may not have been processed yet."].
Proof.
  pose proof (last_execution_results_report demo_host (scheduled_as "job-finished")
                "finished" "finished" eq_refl eq_refl) as (F & _ & _).
  pose proof (last_execution_results_report demo_host (scheduled_as "job-failed")
                "failed" "failed" eq_refl eq_refl) as (_ & P & _).
  pose proof (last_execution_results_report demo_host (scheduled_as "job-queued")
                "queued" "queued" eq_refl eq_refl) as (_ & _ & Q).
  rewrite (F eq_refl).
  rewrite (P ltac:(discriminate) "deflate(Traceback: division by zero)"
             "Traceback: division by zero" eq_refl ltac:(discriminate) eq_refl).
  rewrite (Q ltac:(discriminate) (or_introl eq_refl)).
  repeat split.
Defined.

Example built_in_arguments_on_demo_host :
  built_in_arguments demo_host (sample "TS-0008" "Hourly" VNone (VInt 5)) = Ok VNone
  /\ built_in_arguments demo_host
       {| name := "TS-0008"; task := "TASK-0001"; task_description := VNone;
          run_frequency := "Hourly"; day_of_week := VNone; day_of_month := VNone;
          month := VNone; hour := VNone; minute := VInt 5; cron_string := VNone;
          schedule_description := VNone; enabled := true; redis_job_id := "";
          argument_overrides := VStr "42" |} = Ok (VInt 42)
  /\ built_in_arguments demo_host
       {| name := "TS-0008"; task := "TASK-0001"; task_description := VNone;
          run_frequency := "Hourly"; day_of_week := VNone; day_of_month := VNone;
          month := VNone; hour := VNone; minute := VInt 5; cron_string := VNone;
          schedule_description := VNone; enabled := true; redis_job_id := "";
          argument_overrides := VStr "{{" |} = Raise (ValueError "malformed node or string").
Proof. repeat split. Qed.

(** ** The bulk resubmission *)

Section Bulk.

Variable h : host.

(** A schedule that [check_minutes] refuses cannot be saved: [validate]
    runs again inside [save] and raises again. *)
Lemma refused_minutes_block_save (s : frame) (e : exn) :
  run_frequency (self s) = "Hourly" ->
  check_minutes (minute (self s)) = Raise e ->
  raised (fst (save h s)) = true /\ env (snd (save h s)) = env s.
Proof.
  intros F C. unfold save.
  pose proof (before_validate_same_record h s) as V1.
  pose proof (before_validate_fields h s) as Fs.
  destruct (before_validate h s) as [[[]|e1] s1] eqn:E1; cbn [fst snd] in V1, Fs.
  2:{ rewrite (bind_raise _ _ _ _ _ E1). split; [reflexivity|apply V1]. }
  rewrite (bind_ok _ _ _ _ _ E1).
  specialize (Fs eq_refl). unfold schedule_fields in Fs. rewrite F in Fs.
  cbn [String.eqb Ascii.eqb Bool.eqb] in Fs.
  injection Fs as F1 M1 _ _ _ _ _.
  assert (V : validate h s1 = (Raise e, s1))
    by now rewrite (validate_hourly h s1 F1), M1, C.
  rewrite (bind_raise _ _ _ _ _ V). split; [reflexivity|apply V1].
Qed.

(** C6, a schedule that fails validation. When the first enabled
    schedule of the table is one that [check_minutes] refuses, the pass
    over the enabled schedules stops there with an exception: the
    handler disables the document in memory and calls [save], which
    validates again and raises out of the handler. The table is as it
    was, so the refused schedule is still stored enabled, and no
    request has been sent: the schedules after it get no resubmission
    attempt. *)
Theorem refused_schedule_aborts_the_pass
    (w : world) (x : BTUTaskSchedule) (rest : list string) (e : exn) :
  enabled_ids (db w) = name x :: rest ->
  find_doc (name x) (db w) = Some x ->
  run_frequency x = "Hourly" ->
  check_minutes (minute x) = Raise e ->
  let out := resubmit_all_task_schedules h w in
  raised (fst out) = true
  /\ db (table (snd out)) = db w
  /\ filter is_request (log (table (snd out))) = filter is_request (log w).
Proof.
  intros Ids Fd F C out.
  set (message := "Error from BTU Scheduler while submitting Task "
                  ++ name x ++ " : " ++ exn_message e).
  set (w2 := record_event (print message) (record_event (msgprint message) w)).
  set (s2 := {| self := set_enabled false x; env := w2 |}).
  destruct (refused_minutes_block_save s2 e F C) as [R Env].
  assert (One : resubmit_one h (name x) {| doc_schedule := None; table := w |} =
                  (fst (save h s2),
                   {| doc_schedule := Some (self (snd (save h s2)));
                      table := env (snd (save h s2)) |})).
  { unfold resubmit_one, try_except, bind, load_doc_schedule, on_doc_schedule,
      announce, on_self, modify, get_self.
    cbn [doc_schedule table]. rewrite Fd. cbn [doc_schedule table self env].
    rewrite (validate_hourly h {| self := x; env := w |} F). cbn [self].
    rewrite C. cbn [doc_schedule table self env fst snd].
    fold message. fold w2. fold s2.
    now destruct (save h s2). }
  unfold out, resubmit_all_task_schedules. rewrite Ids. cbn [resubmit_each].
  destruct (fst (save h s2)) as [[]|e2] eqn:E2; [discriminate R|].
  rewrite (bind_raise _ _ _ _ _ One). cbn [fst snd table].
  rewrite Env. unfold s2, w2, record_event. cbn [env db log].
  repeat split.
  rewrite !filter_app. cbn. now rewrite !app_nil_r.
Qed.

End Bulk.

Lemma refused_schedule_aborts_the_pass_witness :
  raised (fst (resubmit_all_task_schedules demo_host table_with_a_refused_schedule)) = true
  /\ map (fun d => (name d, enabled d))
       (db (table (snd (resubmit_all_task_schedules demo_host
                          table_with_a_refused_schedule)))) =
     [("TS-A", true); ("TS-B", true)]
  /\ filter is_request
       (log (table (snd (resubmit_all_task_schedules demo_host
                           table_with_a_refused_schedule)))) = [].
Proof.
  destruct (refused_schedule_aborts_the_pass demo_host table_with_a_refused_schedule
              (sample "TS-A" "Hourly" VNone (VInt 75)) ["TS-B"]
              (ValueError "Minute value must be between 0 and 59")
              eq_refl eq_refl eq_refl eq_refl) as (R & D & L).
  rewrite R, D, L. repeat split.
Defined.

(** ** Hooks that do not touch the world *)

Lemma env_blind_ret {A : Type} (a : A) : env_blind (ret a).
Proof. intros d w. reflexivity. Qed.

Lemma env_blind_lift {A : Type} (r : result A) : env_blind (lift r).
Proof. intros d w. reflexivity. Qed.

Lemma env_blind_get_self : env_blind get_self.
Proof. intros d w. reflexivity. Qed.

Lemma env_blind_on_self (f : BTUTaskSchedule -> BTUTaskSchedule) :
  env_blind (on_self f).
Proof. intros d w. reflexivity. Qed.

Lemma env_blind_bind {A B : Type} (m : M frame A) (k : A -> M frame B) :
  env_blind m -> (forall a, env_blind (k a)) -> env_blind (bind m k).
Proof.
  intros Hm Hk d w. unfold hook_result, bind.
  rewrite (Hm d w), (Hm d empty_world).
  destruct (hook_result m d) as [[a | e] d1]; cbn [fst snd]; [|reflexivity].
  rewrite (Hk a d1 w), (Hk a d1 empty_world). reflexivity.
Qed.

Lemma env_blind_if {A : Type} (b : bool) (m1 m2 : M frame A) :
  env_blind m1 -> env_blind m2 -> env_blind (if b then m1 else m2).
Proof. now destruct b. Qed.

Create HintDb env_blind.

#[local] Hint Resolve env_blind_ret env_blind_lift env_blind_get_self
  env_blind_on_self env_blind_if : env_blind.

Lemma env_blind_before_validate (h : host) : env_blind (before_validate h).
Proof.
  unfold before_validate.
  repeat (apply env_blind_bind; [|intros]); auto with env_blind.
  apply env_blind_if; auto with env_blind.
  apply env_blind_bind; [|intros]; auto with env_blind.
Qed.

Lemma env_blind_store_cron_string (h : host) : env_blind (store_cron_string h).
Proof.
  unfold store_cron_string.
  repeat (apply env_blind_bind; [|intros]); auto with env_blind.
Qed.

Lemma env_blind_validate (h : host) : env_blind (validate h).
Proof.
  unfold validate. apply env_blind_bind; [auto with env_blind|]. intros doc.
  repeat (apply env_blind_if;
          [repeat (apply env_blind_bind; [|intros]);
           auto using env_blind_store_cron_string with env_blind|]).
  auto with env_blind.
Qed.

Lemma hook_result_fst {A : Type} (m : M frame A) (d : BTUTaskSchedule) :
  fst (hook_result m d) = fst (m {| self := d; env := empty_world |}).
Proof. unfold hook_result. now destruct (m _). Qed.

Lemma hook_result_snd {A : Type} (m : M frame A) (d : BTUTaskSchedule) :
  snd (hook_result m d) = self (snd (m {| self := d; env := empty_world |})).
Proof. unfold hook_result. now destruct (m _). Qed.

(** ** The table *)

Lemma find_doc_name (id : string) (rows : list BTUTaskSchedule) (x : BTUTaskSchedule) :
  find_doc id rows = Some x -> name x = id.
Proof.
  intros F. apply find_some in F as [_ E]. now apply String.eqb_eq.
Qed.

Lemma find_doc_In (id : string) (rows : list BTUTaskSchedule) (x : BTUTaskSchedule) :
  find_doc id rows = Some x -> In x rows.
Proof. intros F. now apply find_some in F as [I _]. Qed.

Lemma find_doc_unique (rows : list BTUTaskSchedule) (x : BTUTaskSchedule) :
  NoDup (map name rows) -> In x rows -> find_doc (name x) rows = Some x.
Proof.
  induction rows as [|d rows IH]; intros N I; [contradiction|].
  cbn in N. apply NoDup_cons_iff in N as [Nd N].
  unfold find_doc. cbn [find].
  destruct I as [-> | I]; [now rewrite String.eqb_refl|].
  destruct (String.eqb (name d) (name x)) eqn:E.
  - apply String.eqb_eq in E. exfalso. apply Nd. rewrite E.
    now apply in_map.
  - now apply IH.
Qed.

Lemma find_doc_update_same (rows : list BTUTaskSchedule) (x : BTUTaskSchedule) :
  find_doc (name x) (db_update x rows) = Some x.
Proof.
  induction rows as [|d rows IH]; unfold find_doc in *; cbn.
  - now rewrite String.eqb_refl.
  - destruct (String.eqb (name d) (name x)) eqn:E; cbn.
    + now rewrite String.eqb_refl.
    + now rewrite E.
Qed.

Lemma find_doc_update_other (rows : list BTUTaskSchedule) (x : BTUTaskSchedule)
    (k : string) :
  name x <> k -> find_doc k (db_update x rows) = find_doc k rows.
Proof.
  intros N. apply String.eqb_neq in N.
  induction rows as [|d rows IH]; unfold find_doc in *; cbn.
  - now rewrite N.
  - destruct (String.eqb (name d) (name x)) eqn:E; cbn.
    + apply String.eqb_eq in E. rewrite E. now rewrite N.
    + now rewrite IH.
Qed.

Lemma db_update_fixed (rows : list BTUTaskSchedule) (x : BTUTaskSchedule) :
  find_doc (name x) rows = Some x -> db_update x rows = rows.
Proof.
  induction rows as [|d rows IH]; unfold find_doc in *; cbn; [discriminate|].
  destruct (String.eqb (name d) (name x)) eqn:E.
  - intros [= ->]. reflexivity.
  - intros F. now rewrite IH.
Qed.

Lemma enabled_ids_NoDup (rows : list BTUTaskSchedule) :
  NoDup (map name rows) -> NoDup (enabled_ids rows).
Proof.
  unfold enabled_ids. induction rows as [|d rows IH]; cbn; [constructor|].
  intros N. apply NoDup_cons_iff in N as [Nd N].
  destruct (enabled d); cbn; [|now apply IH].
  constructor; [|now apply IH].
  intros I. apply Nd. apply in_map_iff in I as (y & Ey & Iy).
  apply filter_In in Iy as [Iy _]. rewrite <- Ey. now apply in_map.
Qed.

Lemma enabled_ids_In (rows : list BTUTaskSchedule) (id : string) :
  In id (enabled_ids rows) ->
  exists x, In x rows /\ name x = id /\ enabled x = true.
Proof.
  unfold enabled_ids. intros I. apply in_map_iff in I as (x & E & I).
  apply filter_In in I as [I En]. now exists x.
Qed.

(** ** Failures of the resubmission are isolated *)

Section Isolation.

Variable h : host.

Lemma before_validate_keeps (d : BTUTaskSchedule) :
  let d' := snd (hook_result (before_validate h) d) in
  name d' = name d /\ enabled d' = enabled d.
Proof.
  cbn zeta. rewrite hook_result_snd.
  destruct (before_validate_same_record h {| self := d; env := empty_world |})
    as (_ & N & E & _).
  now split.
Qed.

Lemma validate_keeps (d : BTUTaskSchedule) :
  let d' := snd (hook_result (validate h) d) in
  name d' = name d /\ enabled d' = enabled d.
Proof.
  cbn zeta. rewrite hook_result_snd.
  destruct (validate_same_record h {| self := d; env := empty_world |})
    as (_ & N & E & _).
  now split.
Qed.

(** A schedule that the pass disables ends up disabled, without a
    handle, under its own name; one that the daemon takes is kept. *)
Lemma settled_row (x x' : BTUTaskSchedule) :
  settled h x = Some x' ->
  name x' = name x
  /\ match submission_error (reload_task_schedule h (name x)) with
     | None => x' = x
     | Some _ => enabled x' = false /\ redis_job_id x' = ""
     end.
Proof.
  unfold settled.
  pose proof (validate_keeps x) as [N1 E1]. cbn zeta in N1, E1.
  destruct (hook_result (validate h) x) as [[[]|e1] x1]; [|discriminate].
  cbn [snd] in N1, E1.
  destruct (submission_error (reload_task_schedule h (name x))) as [ex|];
    [|now intros [= ->]].
  pose proof (before_validate_keeps (set_enabled false x1)) as [N3 E3].
  cbn zeta in N3, E3.
  destruct (hook_result (before_validate h) (set_enabled false x1))
    as [[[]|e3] x3]; [|discriminate].
  cbn [snd] in N3, E3.
  pose proof (validate_keeps x3) as [N4 E4]. cbn zeta in N4, E4.
  destruct (hook_result (validate h) x3) as [[[]|e4] x4]; [|discriminate].
  cbn [snd] in N4, E4.
  destruct (contains_char pipe (name x)); [discriminate|].
  destruct (cancel_task_schedule h (name x)); [|discriminate].
  intros [= <-]. cbn in *. repeat split; congruence.
Qed.

Lemma resubmit_task_schedule_without_autosave (s : frame) :
  resubmit_task_schedule h false s = resubmit_request h s.
Proof.
  unfold resubmit_task_schedule, bind, ret.
  now destruct (resubmit_request h s) as [[[]|e] s'].
Qed.

Lemma submission_messages_no_reload (reply : result value) :
  filter is_reload (submission_messages reply) = [].
Proof.
  unfold submission_messages. now destruct (submission_error reply).
Qed.

Lemma before_save_when_disabling (s : frame) (orig : BTUTaskSchedule) :
  contains_char pipe (name (self s)) = false ->
  enabled (self s) = false ->
  find_doc (name (self s)) (db (env s)) = Some orig ->
  enabled orig = true ->
  before_save h s = cancel_schedule h s.
Proof.
  intros P E F O. unfold before_save.
  rewrite (bind_ok get_self _ s s (self s)) by reflexivity.
  rewrite P, E.
  rewrite (bind_ok (get_doc_before_save) _ s s (Some orig))
    by (unfold get_doc_before_save; now rewrite F).
  now rewrite O.
Qed.

(** Saving a document that has just been disabled, when its hooks pass
    and the daemon answers the cancel request. *)
Lemma save_when_disabling (x2 x3 x4 orig : BTUTaskSchedule) (w : world)
    (response : value) :
  hook_result (before_validate h) x2 = (Ok tt, x3) ->
  hook_result (validate h) x3 = (Ok tt, x4) ->
  contains_char pipe (name x4) = false ->
  enabled x4 = false ->
  find_doc (name x4) (db w) = Some orig ->
  enabled orig = true ->
  cancel_task_schedule h (name x4) = Ok response ->
  exists events,
    save h {| self := x2; env := w |} =
      (Ok tt,
       {| self := set_redis_job_id "" x4;
          env := {| db := db_update (set_redis_job_id "" x4) (db w);
                    log := (log w ++ events)%list |} |})
    /\ filter is_reload events = [].
Proof.
  intros B V P E F O C.
  set (message := "Request = Cancel Task Schedule." ++ newline
                  ++ "Response from BTU Scheduler: " ++ py_str response).
  exists [cancel_request (name x4); print message; msgprint message].
  split; [|reflexivity].
  unfold save.
  rewrite (bind_ok _ _ _ {| self := x3; env := w |} tt
             (eq_trans (env_blind_before_validate h x2 w)
                       ltac:(now rewrite B))).
  rewrite (bind_ok _ _ _ {| self := x4; env := w |} tt
             (eq_trans (env_blind_validate h x3 w) ltac:(now rewrite V))).
  rewrite (bind_ok (before_save h) _ {| self := x4; env := w |}
             {| self := set_redis_job_id "" x4;
                env := {| db := db w;
                          log := (log w ++ [cancel_request (name x4);
                                            print message; msgprint message])%list |} |}
             tt).
  - reflexivity.
  - rewrite (before_save_when_disabling {| self := x4; env := w |} orig P E F O).
    rewrite cancel_schedule_spec. cbn [self]. rewrite C. reflexivity.
Qed.

(** One turn of the loop on a schedule that settles: the turn returns
    normally, one reload request has been sent for it, and its row is
    the settled one; the other rows are the same. *)
Lemma resubmit_one_settles (b : bulk) (id : string) (x x' : BTUTaskSchedule) :
  find_doc id (db (table b)) = Some x ->
  enabled x = true ->
  settled h x = Some x' ->
  exists d events,
    resubmit_one h id b =
      (Ok tt,
       {| doc_schedule := Some d;
          table := {| db := db_update x' (db (table b));
                      log := (log (table b) ++ events)%list |} |})
    /\ filter is_reload events = [reload_request id].
Proof.
  intros Fd En St.
  pose proof (find_doc_name _ _ _ Fd) as Nx.
  destruct b as [ds [rows l]]. cbn [table db log] in *.
  unfold settled in St.
  pose proof (env_blind_validate h x {| db := rows; log := l |}) as V.
  pose proof (validate_keeps x) as [N1 _]. cbn zeta in N1.
  destruct (hook_result (validate h) x) as [[[]|e1] x1]; [|discriminate].
  cbn [fst snd] in V, N1.
  assert (Body :
            resubmit_one h id {| doc_schedule := ds;
                                 table := {| db := rows; log := l |} |} =
              match submission_error (reload_task_schedule h (name x)) with
              | None =>
                  (Ok tt,
                   {| doc_schedule := Some x1;
                      table := {| db := rows;
                                  log := (l ++ reload_request id
                                            :: submission_messages
                                                 (reload_task_schedule h (name x)))%list |} |})
              | Some ex =>
                  let message := "Error from BTU Scheduler while submitting Task "
                                 ++ id ++ " : " ++ exn_message ex in
                  let (r, s) :=
                    save h {| self := set_enabled false x1;
                              env := {| db := rows;
                                        log := (l ++ [reload_request id;
                                                      msgprint message;
                                                      print message])%list |} |} in
                  (r, {| doc_schedule := Some (self s); table := env s |})
              end).
  { unfold resubmit_one, try_except, bind, load_doc_schedule, on_doc_schedule,
      announce, on_self, modify, get_self.
    cbn [doc_schedule table db log]. rewrite Fd.
    cbn [doc_schedule table]. rewrite V. cbn [doc_schedule table self env].
    rewrite resubmit_task_schedule_without_autosave, resubmit_request_spec.
    cbn [self]. rewrite N1, Nx.
    replace (reload_task_schedule h id) with (reload_task_schedule h (name x))
      by now rewrite Nx.
    destruct (submission_error (reload_task_schedule h (name x))) as [ex|].
    - unfold after, record_event. cbn [doc_schedule table self env db log].
      rewrite N1, Nx. rewrite <- !app_assoc. reflexivity.
    - unfold after. cbn [doc_schedule table self env db log]. reflexivity. }
  rewrite Body. clear Body.
  destruct (submission_error (reload_task_schedule h (name x))) as [ex|].
  - pose proof (before_validate_keeps (set_enabled false x1)) as [N3 E3].
    cbn zeta in N3, E3.
    destruct (hook_result (before_validate h) (set_enabled false x1))
      as [[[]|e3] x3] eqn:B3; [|discriminate].
    pose proof (validate_keeps x3) as [N4 E4]. cbn zeta in N4, E4.
    destruct (hook_result (validate h) x3) as [[[]|e4] x4] eqn:V4; [|discriminate].
    cbn [snd] in N3, E3, N4, E4. cbn in N3, E3.
    assert (Nm : name x4 = name x) by congruence.
    destruct (contains_char pipe (name x)) eqn:P; [discriminate|].
    destruct (cancel_task_schedule h (name x)) as [response|] eqn:C; [|discriminate].
    injection St as <-.
    set (message := "Error from BTU Scheduler while submitting Task "
                    ++ id ++ " : " ++ exn_message ex).
    destruct (save_when_disabling (set_enabled false x1) x3 x4 x
                {| db := rows;
                   log := (l ++ [reload_request id; msgprint message;
                                 print message])%list |}
                response B3 V4) as (events & S & R).
    + now rewrite Nm.
    + congruence.
    + cbn [db]. now rewrite Nm, Nx.
    + exact En.
    + now rewrite Nm.
    + cbn zeta. rewrite S. cbn [self env db log].
      exists (set_redis_job_id "" x4),
        ([reload_request id; msgprint message; print message] ++ events)%list.
      split; [now rewrite <- app_assoc|].
      rewrite filter_app, R. reflexivity.
  - injection St as <-.
    exists x1, (reload_request id
                  :: submission_messages (reload_task_schedule h (name x))).
    split.
    + rewrite db_update_fixed; [reflexivity|now rewrite Nx].
    + cbn. now rewrite submission_messages_no_reload.
Qed.

Lemma resubmit_each_settles (ids : list string) :
  NoDup ids ->
  forall b : bulk,
    (forall id, In id ids ->
       exists x x', find_doc id (db (table b)) = Some x
                    /\ enabled x = true /\ settled h x = Some x') ->
    exists d rows events,
      resubmit_each h ids b =
        (Ok tt,
         {| doc_schedule := d;
            table := {| db := rows; log := (log (table b) ++ events)%list |} |})
      /\ filter is_reload events = map reload_request ids
      /\ (forall k x, In k ids -> find_doc k (db (table b)) = Some x ->
            find_doc k rows = settled h x)
      /\ (forall k, ~ In k ids -> find_doc k rows = find_doc k (db (table b))).
Proof.
  induction ids as [|id rest IH]; intros N b Hyp.
  - exists (doc_schedule b), (db (table b)), [].
    destruct b as [d [rows l]]. cbn. rewrite app_nil_r.
    repeat split; intros; contradiction.
  - apply NoDup_cons_iff in N as [Nid N].
    destruct (Hyp id (or_introl eq_refl)) as (x & x' & Fd & En & St).
    destruct (resubmit_one_settles b id x x' Fd En St) as (d1 & ev1 & One & R1).
    destruct (settled_row x x' St) as [Nx' _].
    pose proof (find_doc_name _ _ _ Fd) as Nx.
    assert (Other : forall k, k <> id ->
              find_doc k (db_update x' (db (table b))) = find_doc k (db (table b))).
    { intros k Nk. apply find_doc_update_other. congruence. }
    set (b1 := {| doc_schedule := Some d1;
                  table := {| db := db_update x' (db (table b));
                              log := (log (table b) ++ ev1)%list |} |}) in *.
    destruct (IH N b1) as (d2 & rows2 & ev2 & Each & R2 & In2 & Out2).
    { intros id' I'. destruct (Hyp id' (or_intror I')) as (y & y' & Fy & Ey & Sy).
      exists y, y'. cbn [b1 table db]. rewrite Other; [auto|].
      intros ->. contradiction. }
    exists d2, rows2, (ev1 ++ ev2)%list.
    cbn [resubmit_each]. rewrite (bind_ok _ _ _ _ _ One), Each.
    cbn [b1 table db log] in *. rewrite <- app_assoc.
    split; [reflexivity|]. split; [now rewrite filter_app, R1, R2|]. split.
    + intros k y [<- | Ik] Fk.
      * rewrite Out2 by exact Nid.
        rewrite Fd in Fk. injection Fk as <-.
        rewrite <- Nx, <- Nx'. rewrite find_doc_update_same. now rewrite St.
      * apply In2; [exact Ik|]. rewrite Other; [exact Fk|].
        intros ->. contradiction.
    + intros k Nk. rewrite Out2 by (intros I; apply Nk; now right). apply Other.
      intros ->. apply Nk. now left.
Qed.

(** X23. Failures of the resubmission itself. On a table with distinct names
    where every enabled schedule settles (it passes [validate], and
    either the daemon takes it or it can be disabled and saved), the
    pass returns normally; every enabled schedule gets one reload
    request, in the order of the table; a schedule the daemon took keeps
    its row, a schedule whose submission failed is stored disabled and
    without a handle, and the disabled rows are untouched. *)
Theorem resubmission_failures_are_isolated (w : world) :
  NoDup (map name (db w)) ->
  (forall x, In x (db w) -> enabled x = true -> settled h x <> None) ->
  let out := resubmit_all_task_schedules h w in
  fst out = Ok tt
  /\ (forall x, In x (db w) ->
        find_doc (name x) (db (table (snd out))) =
          if enabled x then settled h x else Some x)
  /\ (exists events,
        log (table (snd out)) = (log w ++ events)%list
        /\ filter is_reload events = map reload_request (enabled_ids (db w)))
  /\ NoDup (enabled_ids (db w)).
Proof.
  intros N Hyp out.
  destruct (resubmit_each_settles (enabled_ids (db w)) (enabled_ids_NoDup _ N)
              {| doc_schedule := None; table := w |})
    as (d & rows & events & Each & R & Inside & Outside).
  { intros id I. apply enabled_ids_In in I as (x & Ix & Nx & Ex).
    exists x. destruct (settled h x) as [x'|] eqn:S.
    - exists x'. cbn [table]. rewrite <- Nx. now rewrite find_doc_unique.
    - exfalso. now apply (Hyp x Ix Ex). }
  unfold out, resubmit_all_task_schedules. rewrite Each.
  cbn [fst snd table db log] in *.
  split; [reflexivity|]. split; [|split; [now exists events|now apply enabled_ids_NoDup]].
  intros x Ix. pose proof (find_doc_unique (db w) x N Ix) as Fx.
  destruct (enabled x) eqn:Ex.
  - apply Inside; [|exact Fx].
    unfold enabled_ids. apply in_map. apply filter_In. now split.
  - rewrite Outside; [exact Fx|].
    intros I. apply enabled_ids_In in I as (y & Iy & Ny & Ey).
    pose proof (find_doc_unique (db w) y N Iy) as Fy.
    rewrite Ny, Fx in Fy. injection Fy as ->. congruence.
Qed.

End Isolation.

(** One schedule out of three cannot be submitted: it is stored
    disabled, the other enabled one is submitted once and the disabled
    one is left alone. *)
Example one_failed_submission_is_isolated :
  let h := with_daemon (daemon_down_for "TS-A") (cancel_task_schedule demo_host)
             demo_host in
  let out := resubmit_all_task_schedules h table_of_valid_schedules in
  fst out = Ok tt
  /\ map (fun d => (name d, enabled d)) (db (table (snd out))) =
       [("TS-A", false); ("TS-C", false); ("TS-B", true)]
  /\ filter is_request (log (table (snd out))) =
       [reload_request "TS-A"; cancel_request "TS-A"; reload_request "TS-B"].
Proof. repeat split. Qed.

(** ** The whole save of an enabled schedule *)

Section Whole_save.

Variable h : host.

Lemma before_save_when_enabled (s : frame) :
  contains_char pipe (name (self s)) = false ->
  enabled (self s) = true ->
  before_save h s =
    (Ok tt, after (reload_request (name (self s))
                     :: submission_messages (reload_task_schedule h (name (self s)))) s).
Proof.
  intros P E. unfold before_save.
  rewrite (bind_ok get_self _ s s (self s)) by reflexivity.
  rewrite P, E. unfold try_except. rewrite resubmit_request_spec.
  unfold submission_messages.
  destruct (submission_error (reload_task_schedule h (name (self s)))) as [ex|];
    [|reflexivity].
  destruct s as [d [rows l]].
  unfold emit, modify, after, record_event; cbn.
  now rewrite <- app_assoc.
Qed.

(** When the two validation hooks pass, the save of an enabled schedule
    goes through whatever the daemon answers: one reload request is
    sent and the row is written, enabled. *)
Lemma save_goes_through_when_submission_fails (s s1 s2 : frame) :
  before_validate h s = (Ok tt, s1) ->
  validate h s1 = (Ok tt, s2) ->
  contains_char pipe (name (self s)) = false ->
  enabled (self s) = true ->
  save h s =
    (Ok tt,
     {| self := self s2;
        env := {| db := db_update (self s2) (db (env s));
                  log := (log (env s)
                            ++ reload_request (name (self s))
                            :: submission_messages
                                 (reload_task_schedule h (name (self s))))%list |} |})
  /\ enabled (self s2) = true.
Proof.
  intros B V P E.
  pose proof (before_validate_same_record h s) as R1. rewrite B in R1.
  pose proof (validate_same_record h s1) as R2. rewrite V in R2.
  destruct (same_record_trans _ _ _ R1 R2) as (We & Na & En & _).
  cbn [snd] in We, Na, En.
  split; [|congruence].
  unfold save.
  rewrite (bind_ok _ _ _ _ _ B), (bind_ok _ _ _ _ _ V).
  rewrite (bind_ok _ _ _ _ _
             (before_save_when_enabled s2 ltac:(congruence) ltac:(congruence))).
  unfold modify, after. cbn [self env db log]. now rewrite We, Na.
Qed.

End Whole_save.

(** * Further properties of the module *)

(** ** The field checks *)

(** X1. [check_hours] accepts exactly the texts made of digits whose
    value is between 0 and 23, leading zeros included; an hour given as
    a number, [None] or any other text is refused. *)
Theorem check_hours_accepts_exactly (v : value) :
  check_hours v = Ok tt <->
  exists digits, v = VStr digits /\ isdigit digits = true
                 /\ 0 <= int_of_digits digits < 24.
Proof.
  split.
  - destruct v as [|n|s]; cbn; [discriminate| |].
    + destruct (negb (negb (n =? 0))); discriminate.
    + unfold isdigit.
      destruct (String.eqb s "") eqn:E; cbn; [discriminate|].
      destruct (all_digits s) eqn:D; cbn; [|discriminate].
      destruct (0 <=? int_of_digits s) eqn:L; cbn; [|discriminate].
      destruct (int_of_digits s <? 24) eqn:U; cbn; [|discriminate].
      intros _. exists s. rewrite E, D.
      apply Z.leb_le in L. apply Z.ltb_lt in U. repeat split; assumption.
  - intros (digits & -> & D & L & U). unfold check_hours.
    assert (T : truthy (VStr digits) = true).
    { unfold isdigit in D. apply andb_true_iff in D as [D _]. exact D. }
    rewrite T, D.
    replace (0 <=? int_of_digits digits) with true by (symmetry; apply Z.leb_le; lia).
    replace (int_of_digits digits <? 24) with true by (symmetry; apply Z.ltb_lt; lia).
    reflexivity.
Qed.

(** X2. [check_minutes] accepts exactly the integers from 1 to 59: zero,
    [None], any text and any integer out of range are refused. *)
Theorem check_minutes_accepts_exactly (v : value) :
  check_minutes v = Ok tt <-> exists m, v = VInt m /\ 1 <= m <= 59.
Proof.
  split.
  - destruct v as [|m|s]; cbn; [discriminate| |].
    + destruct (m =? 0) eqn:Z; cbn; [discriminate|].
      destruct (0 <=? m) eqn:L; cbn; [|discriminate].
      destruct (m <? 60) eqn:U; cbn; [|discriminate].
      intros _. exists m. apply Z.eqb_neq in Z. apply Z.leb_le in L.
      apply Z.ltb_lt in U. split; [reflexivity|lia].
    + destruct (negb (negb (String.eqb s ""))); discriminate.
  - intros (m & -> & R). unfold check_minutes, truthy.
    replace (m =? 0) with false by (symmetry; apply Z.eqb_neq; lia).
    replace (0 <=? m) with true by (symmetry; apply Z.leb_le; lia).
    replace (m <? 60) with true by (symmetry; apply Z.ltb_lt; lia).
    reflexivity.
Qed.

Section Day_of_month.

Variable h : host.

Lemma title_of_empty_month (month : string) (last : Z) :
  monthrange_days (current_year h) (month_dict_get (title month)) = Ok last ->
  month <> "".
Proof. intros M ->. cbn in M. discriminate M. Qed.

(** The check of a Yearly day against a month that the calendar knows. *)
Lemma yearly_check (day month : string) (last : Z) :
  isdigit day = true ->
  monthrange_days (current_year h) (month_dict_get (title month)) = Ok last ->
  check_day_of_month h "Yearly" (VStr day) (VStr month) =
    if last <? int_of_digits day
    then Raise (ValueError ("Day value for " ++ month ++ " must be between 1 and "
                              ++ str_of_Z last))
    else Ok tt.
Proof.
  intros D M. pose proof (title_of_empty_month month last M) as Nm.
  unfold check_day_of_month. cbn [String.eqb Ascii.eqb Bool.eqb andb rbind].
  assert (Td : truthy (VStr day) = true).
  { unfold isdigit in D. apply andb_true_iff in D as [D _]. exact D. }
  assert (Tm : truthy (VStr month) = true).
  { cbn. apply String.eqb_neq in Nm. now rewrite Nm. }
  rewrite Td, Tm. cbn [andb py_str]. rewrite M. cbn [rbind py_int].
  rewrite (int_of_text_digits day D). reflexivity.
Qed.

(** Every month the calendar knows has 28 to 31 days. *)
Lemma month_length_bounds (year : Z) (month : option Z) (last : Z) :
  monthrange_days year month = Ok last -> 28 <= last <= 31.
Proof.
  unfold monthrange_days. destruct month as [k|]; [|discriminate].
  destruct ((1 <=? k) && (k <=? 12)) eqn:R; [|discriminate].
  apply andb_true_iff in R as [R1 R2]. apply Z.leb_le in R1, R2.
  intros [= <-].
  assert (K : k = 1 \/ k = 2 \/ k = 3 \/ k = 4 \/ k = 5 \/ k = 6 \/ k = 7
              \/ k = 8 \/ k = 9 \/ k = 10 \/ k = 11 \/ k = 12) by lia.
  destruct (isleap year);
    repeat (destruct K as [-> | K]; [vm_compute; split; discriminate|]);
    subst; vm_compute; split; discriminate.
Qed.

(** X3. For a Yearly schedule whose month is one the calendar knows, in
    any spelling of its case, a day given in digits passes
    [check_day_of_month] exactly when it does not exceed the length of
    that month in the current year. There is no lower bound: day 0
    passes. *)
Theorem yearly_day_is_bounded_above_only (day month : string) (last : Z) :
  isdigit day = true ->
  monthrange_days (current_year h) (month_dict_get (title month)) = Ok last ->
  (check_day_of_month h "Yearly" (VStr day) (VStr month) = Ok tt <->
   int_of_digits day <= last)
  /\ check_day_of_month h "Yearly" (VStr "0") (VStr month) = Ok tt
  /\ 28 <= last <= 31.
Proof.
  intros D M. pose proof (month_length_bounds _ _ _ M) as B.
  split; [|split; [|exact B]].
  - rewrite (yearly_check day month last D M).
    destruct (last <? int_of_digits day) eqn:L.
    + apply Z.ltb_lt in L. split; [discriminate|lia].
    + apply Z.ltb_ge in L. split; [now intros _|reflexivity].
  - rewrite (yearly_check "0" month last eq_refl M).
    replace (last <? int_of_digits "0") with false
      by (symmetry; apply Z.ltb_ge; change (int_of_digits "0") with 0; lia).
    reflexivity.
Qed.

(** X4. February, however its case is written: day 30 is refused in
    every year, and day 29 passes exactly in a leap year. *)
Theorem february_days (month : string) :
  title month = "Feb" ->
  raised (check_day_of_month h "Yearly" (VStr "30") (VStr month)) = true
  /\ (check_day_of_month h "Yearly" (VStr "29") (VStr month) = Ok tt <->
      isleap (current_year h) = true).
Proof.
  intros T.
  assert (M : monthrange_days (current_year h) (month_dict_get (title month)) =
              Ok (28 + (if isleap (current_year h) then 1 else 0))).
  { rewrite T. cbn. now destruct (isleap (current_year h)). }
  split.
  - rewrite (yearly_check "30" month _ eq_refl M).
    now destruct (isleap (current_year h)).
  - rewrite (yearly_check "29" month _ eq_refl M).
    destruct (isleap (current_year h)); cbn; split; auto; discriminate.
Qed.

End Day_of_month.

Lemma yearly_day_is_bounded_above_only_witness :
  (check_day_of_month demo_host "Yearly" (VStr "31") (VStr "apr") = Ok tt <->
   int_of_digits "31" <= 30)
  /\ check_day_of_month demo_host "Yearly" (VStr "0") (VStr "apr") = Ok tt
  /\ 28 <= 30 <= 31.
Proof.
  apply (yearly_day_is_bounded_above_only demo_host "31" "apr" 30); reflexivity.
Defined.

Lemma february_days_witness :
  raised (check_day_of_month demo_host "Yearly" (VStr "30") (VStr "FEB")) = true
  /\ (check_day_of_month demo_host "Yearly" (VStr "29") (VStr "FEB") = Ok tt <->
      isleap (current_year demo_host) = true).
Proof.
  apply (february_days demo_host "FEB"). reflexivity.
Defined.

(** ** Weekly, Monthly and Yearly schedules *)

Lemma check_hours_of_digits (digits : string) :
  isdigit digits = true -> 0 <= int_of_digits digits < 24 ->
  check_hours (VStr digits) = Ok tt.
Proof.
  intros D R. unfold check_hours.
  assert (T : truthy (VStr digits) = true).
  { unfold isdigit in D. apply andb_true_iff in D as [D _]. exact D. }
  rewrite T, D.
  replace (0 <=? int_of_digits digits) with true by (symmetry; apply Z.leb_le; lia).
  replace (int_of_digits digits <? 24) with true by (symmetry; apply Z.ltb_lt; lia).
  reflexivity.
Qed.

Lemma check_minutes_in_range (m : Z) :
  1 <= m <= 59 -> check_minutes (VInt m) = Ok tt.
Proof.
  intros R. unfold check_minutes, truthy.
  replace (m =? 0) with false by (symmetry; apply Z.eqb_neq; lia).
  replace (0 <=? m) with true by (symmetry; apply Z.leb_le; lia).
  replace (m <? 60) with true by (symmetry; apply Z.ltb_lt; lia).
  reflexivity.
Qed.

Section Structured_frequencies.

Variable h : host.

(** Storing the translation of a schedule whose fields and join are
    known. *)
Lemma store_translation (s : frame) (fields : list value) (text : string) :
  String.eqb (run_frequency (self s)) "Cron Style" = false ->
  cron_fields h (self s) = Ok fields ->
  join " " fields = Ok text ->
  store_cron_string h s =
    match validate_cron_string h text (Some true) with
    | Ok _ => (Ok tt, {| self := set_cron_string (VStr text) (self s); env := env s |})
    | Raise e => (Raise e, s)
    end.
Proof.
  intros F C J. rewrite store_cron_string_spec.
  rewrite (schedule_to_cron_string_fields h (self s) fields text F C J).
  now destruct (validate_cron_string h text (Some true)).
Qed.

(** X5. A Weekly schedule with a day of the week, a valid hour and a
    minute from 1 to 59, and with no day of the month or month left
    over, is translated to the minute, the corrected hour, two
    wildcards and the first three characters of the day; [validate]
    stores that string when the grammar check takes it and raises the
    check's exception, the document untouched, when it does not. *)
Theorem weekly_cron_string (s : frame) (dow digits : string) (m : Z) :
  run_frequency (self s) = "Weekly" ->
  day_of_week (self s) = VStr dow -> dow <> "" ->
  hour (self s) = VStr digits -> isdigit digits = true ->
  0 <= int_of_digits digits < 24 ->
  minute (self s) = VInt m -> 1 <= m <= 59 ->
  day_of_month (self s) = VNone -> month (self s) = VNone ->
  let text := str_of_Z m ++ " "
              ++ float_str h (corrected_hour h (int_of_digits digits))
              ++ " * * " ++ first_three dow in
  validate h s =
    match validate_cron_string h text (Some true) with
    | Ok _ => (Ok tt, {| self := set_cron_string (VStr text) (self s); env := env s |})
    | Raise e => (Raise e, s)
    end.
Proof.
  intros F W Nw Hr D R Mi Rm Dm Mo text. unfold validate.
  rewrite (bind_ok get_self _ s s (self s)) by reflexivity.
  rewrite F. cbn [String.eqb Ascii.eqb Bool.eqb].
  rewrite lift_check, W.
  assert (Cw : check_day_of_week (VStr dow) = Ok tt).
  { unfold check_day_of_week. cbn. apply String.eqb_neq in Nw. now rewrite Nw. }
  rewrite Cw, lift_check, Hr, (check_hours_of_digits digits D R).
  rewrite lift_check, Mi, (check_minutes_in_range m Rm).
  apply (store_translation s
           [VStr (str_of_Z m);
            VStr (float_str h (corrected_hour h (int_of_digits digits)));
            VStr "*"; VStr "*"; VStr (first_three dow)]).
  - now rewrite F.
  - unfold cron_fields. rewrite Mi, Hr, Dm, Mo, W.
    cbn [is_None py_str py_int]. rewrite (int_of_text_digits digits D).
    reflexivity.
  - reflexivity.
Qed.


(** X7. For a Yearly schedule whose day does not exceed the length of
    its month this year, [validate] builds the candidate string of
    minute, corrected hour, day, month and a wildcard; the month is
    matched against the calendar whatever its case and goes into the
    candidate the way it is stored. [validate] stores the candidate when
    the grammar check takes it and raises the check's exception, the
    document untouched, when it does not. *)
Theorem yearly_cron_string (s : frame) (day mon digits : string) (last m : Z) :
  run_frequency (self s) = "Yearly" ->
  day_of_month (self s) = VStr day -> isdigit day = true ->
  month (self s) = VStr mon ->
  monthrange_days (current_year h) (month_dict_get (title mon)) = Ok last ->
  int_of_digits day <= last ->
  hour (self s) = VStr digits -> isdigit digits = true ->
  0 <= int_of_digits digits < 24 ->
  minute (self s) = VInt m -> 1 <= m <= 59 ->
  day_of_week (self s) = VNone ->
  let text := str_of_Z m ++ " "
              ++ float_str h (corrected_hour h (int_of_digits digits))
              ++ " " ++ day ++ " " ++ mon ++ " *" in
  validate h s =
    match validate_cron_string h text (Some true) with
    | Ok _ => (Ok tt, {| self := set_cron_string (VStr text) (self s); env := env s |})
    | Raise e => (Raise e, s)
    end.
Proof.
  intros F Dm Dd Mo Mr Le Hr D R Mi Rm W text. unfold validate.
  rewrite (bind_ok get_self _ s s (self s)) by reflexivity.
  rewrite F. cbn [String.eqb Ascii.eqb Bool.eqb].
  rewrite lift_check, Dm, Mo, (yearly_check h day mon last Dd Mr).
  replace (last <? int_of_digits day) with false by (symmetry; apply Z.ltb_ge; lia).
  rewrite lift_check, Hr, (check_hours_of_digits digits D R).
  rewrite lift_check, Mi, (check_minutes_in_range m Rm).
  apply (store_translation s
           [VStr (str_of_Z m);
            VStr (float_str h (corrected_hour h (int_of_digits digits)));
            VStr day; VStr mon; VStr "*"]).
  - now rewrite F.
  - unfold cron_fields. rewrite Mi, Hr, Dm, Mo, W.
    cbn [is_None py_str py_int]. rewrite (int_of_text_digits digits D).
    reflexivity.
  - reflexivity.
Qed.

End Structured_frequencies.

Lemma weekly_cron_string_witness :
  validate demo_host
    {| self := set_day_of_week (VStr "Monday")
                 (sample "TS-0010" "Weekly" (VStr "09") (VInt 30));
       env := empty_world |} =
    (Raise (OtherException "String '30 14.0 * * Mon' is not a valid Unix cron string."),
     {| self := set_day_of_week (VStr "Monday")
                  (sample "TS-0010" "Weekly" (VStr "09") (VInt 30));
        env := empty_world |}).
Proof.
  apply (weekly_cron_string demo_host
           {| self := set_day_of_week (VStr "Monday")
                        (sample "TS-0010" "Weekly" (VStr "09") (VInt 30));
              env := empty_world |} "Monday" "09" 30);
    try reflexivity; try discriminate;
    try (split; [apply Z.leb_le|apply Z.leb_le]; reflexivity).
  split; [apply Z.leb_le|apply Z.ltb_lt]; reflexivity.
Defined.


Lemma yearly_cron_string_witness :
  validate demo_host
    {| self := set_month (VStr "feb")
                 (set_day_of_month (VStr "28")
                    (sample "TS-0012" "Yearly" (VStr "0") (VInt 1)));
       env := empty_world |} =
    (Raise (OtherException "String '1 5.0 28 feb *' is not a valid Unix cron string."),
     {| self := set_month (VStr "feb")
                  (set_day_of_month (VStr "28")
                     (sample "TS-0012" "Yearly" (VStr "0") (VInt 1)));
        env := empty_world |}).
Proof.
  apply (yearly_cron_string demo_host
           {| self := set_month (VStr "feb")
                        (set_day_of_month (VStr "28")
                           (sample "TS-0012" "Yearly" (VStr "0") (VInt 1)));
              env := empty_world |} "28" "feb" "0" 28 1);
    try reflexivity;
    try (apply Z.leb_le; reflexivity);
    try (split; [apply Z.leb_le|apply Z.leb_le]; reflexivity).
  split; [apply Z.leb_le|apply Z.ltb_lt]; reflexivity.
Defined.

(** ** What [validate] and [before_validate] change *)

Lemma set_cron_string_same (d : BTUTaskSchedule) :
  set_cron_string (cron_string d) d = d.
Proof. now destruct d. Qed.

Section Hooks_again.

Variable h : host.

(** The outcome [out] of a hook run on [s] differs from [s] in the cron
    string at most, and not at all when the hook raised. *)
Lemma only_cron_string_check (r : result unit) (k : M frame unit) (s : frame) :
  ((exists c, snd (k s) = {| self := set_cron_string c (self s); env := env s |})
   /\ (raised (fst (k s)) = true -> snd (k s) = s)) ->
  (exists c, snd (bind (lift r) (fun _ => k) s) =
             {| self := set_cron_string c (self s); env := env s |})
  /\ (raised (fst (bind (lift r) (fun _ => k) s)) = true ->
      snd (bind (lift r) (fun _ => k) s) = s).
Proof.
  intros K. rewrite lift_check. destruct r; [exact K|].
  split; [|reflexivity].
  exists (cron_string (self s)). rewrite set_cron_string_same. now destruct s.
Qed.

Lemma only_cron_string_store (s : frame) :
  (exists c, snd (store_cron_string h s) =
             {| self := set_cron_string c (self s); env := env s |})
  /\ (raised (fst (store_cron_string h s)) = true ->
      snd (store_cron_string h s) = s).
Proof.
  rewrite store_cron_string_spec.
  destruct (schedule_to_cron_string h (self s)) as [c|e].
  - split; [now exists c|discriminate].
  - split; [|reflexivity].
    exists (cron_string (self s)). rewrite set_cron_string_same. now destruct s.
Qed.

Lemma validate_shape (s : frame) :
  (exists c, snd (validate h s) =
             {| self := set_cron_string c (self s); env := env s |})
  /\ (raised (fst (validate h s)) = true -> snd (validate h s) = s).
Proof.
  assert (Same : (exists c, s = {| self := set_cron_string c (self s); env := env s |}))
    by (exists (cron_string (self s)); rewrite set_cron_string_same; now destruct s).
  unfold validate. rewrite (bind_ok get_self _ s s (self s)) by reflexivity.
  repeat match goal with
  | |- context [if String.eqb ?a ?b then _ else _] =>
      destruct (String.eqb a b)
  end;
  repeat apply only_cron_string_check;
  try apply only_cron_string_store;
  try (split; [exact Same|reflexivity]).
  unfold bind, lift, ret.
  destruct (validate_cron_string h (py_str (cron_string (self s))) None);
    (split; [exact Same|reflexivity]).
Qed.

(** X8. [validate] changes nothing but the cron string: every other
    column, the table and the log are as before; and a validation that
    raises leaves the document exactly as it was, the cron string
    included. *)
Theorem validate_changes_the_cron_string_only (s : frame) :
  env (snd (validate h s)) = env s
  /\ (exists c, self (snd (validate h s)) = set_cron_string c (self s))
  /\ (raised (fst (validate h s)) = true -> snd (validate h s) = s).
Proof.
  destruct (validate_shape s) as [[c C] R].
  rewrite C. cbn [self env]. repeat split; [now exists c|].
  intros X. rewrite <- C. now apply R.
Qed.




(** A frequency that is none of the six is not validated at all. *)
Lemma validate_unknown_frequency (s : frame) :
  structured (run_frequency (self s)) = false ->
  String.eqb (run_frequency (self s)) "Cron Style" = false ->
  validate h s = (Ok tt, s).
Proof.
  unfold structured. cbn [existsb]. intros S F. unfold validate.
  rewrite (bind_ok get_self _ s s (self s)) by reflexivity.
  rewrite F.
  repeat match goal with
  | |- context [if String.eqb ?a ?b then _ else _] =>
      destruct (String.eqb a b)
  end; try discriminate S.
  reflexivity.
Qed.


(** X10. Running [before_validate] again changes nothing: after a run
    that returned, a second run returns too and leaves the same
    document. *)
Theorem before_validate_is_idempotent (s s' : frame) :
  before_validate h s = (Ok tt, s') -> before_validate h s' = (Ok tt, s').
Proof.
  destruct s as [d w].
  unfold before_validate, bind, get_self, lift, on_self, modify, ret; cbn.
  destruct (task_desc_short h (task d)) as [desc | e] eqn:T; cbn; [|discriminate].
  destruct (truthy (cron_string d)) eqn:C; cbn;
    [destruct (get_description h (cron_string d)) as [text|] eqn:G; cbn;
     [|discriminate]|];
    destruct (String.eqb (run_frequency d) "Cron Style") eqn:F1;
    destruct (String.eqb (run_frequency d) "Hourly") eqn:F2;
    destruct (String.eqb (run_frequency d) "Daily") eqn:F3;
    cbn; intros [= <-]; cbn; rewrite T; cbn; rewrite C; cbn;
    rewrite ?G; cbn; rewrite F1, F2, F3; reflexivity.
Qed.

(** X11. What a completed [before_validate] clears: for Cron Style all
    five structured fields; for Hourly everything but the minute; for
    Daily the day of the week, the day of the month and the month. The
    fields that belong to the frequency and the stored cron string are
    kept. *)
Theorem cleared_fields (s : frame) :
  fst (before_validate h s) = Ok tt ->
  let d := self s in
  let d' := self (snd (before_validate h s)) in
  cron_string d' = cron_string d
  /\ (run_frequency d = "Cron Style" ->
      [minute d'; hour d'; day_of_month d'; month d'; day_of_week d'] =
      [VNone; VNone; VNone; VNone; VNone])
  /\ (run_frequency d = "Hourly" ->
      [minute d'; hour d'; day_of_month d'; month d'; day_of_week d'] =
      [minute d; VNone; VNone; VNone; VNone])
  /\ (run_frequency d = "Daily" ->
      [minute d'; hour d'; day_of_month d'; month d'; day_of_week d'] =
      [minute d; hour d; VNone; VNone; VNone]).
Proof.
  intros B d d'. pose proof (before_validate_fields h s B) as Fs.
  unfold schedule_fields in Fs. fold d d' in Fs.
  injection Fs as _ L C.
  split; [exact C|].
  repeat split; intros F; rewrite F in L;
    cbn [String.eqb Ascii.eqb Bool.eqb] in L; exact L.
Qed.

(** X12. The description is one save behind. [before_validate]
    describes the cron string that is stored when it runs, and
    [validate], which derives the new cron string afterwards, does not
    touch the description: after both hooks the description is that of
    the old cron string, or the old description when there was no cron
    string yet. *)
Theorem description_is_of_the_previous_cron_string (s s1 s2 : frame) :
  before_validate h s = (Ok tt, s1) ->
  validate h s1 = (Ok tt, s2) ->
  schedule_description (self s2) =
    if truthy (cron_string (self s))
    then match get_description h (cron_string (self s)) with
         | Ok text => VStr text
         | Raise _ => schedule_description (self s)
         end
    else schedule_description (self s).
Proof.
  intros B V.
  destruct (validate_shape s1) as [[c C] _]. rewrite V in C. cbn [snd] in C.
  subst s2. cbn [self schedule_description set_cron_string].
  revert B. destruct s as [d w].
  unfold before_validate, bind, get_self, lift, on_self, modify, ret; cbn.
  destruct (task_desc_short h (task d)) as [desc | e]; cbn; [|discriminate].
  destruct (truthy (cron_string d)); cbn;
    [destruct (get_description h (cron_string d)) as [text|]; cbn;
     [|discriminate]|];
    destruct (String.eqb (run_frequency d) "Cron Style"),
             (String.eqb (run_frequency d) "Hourly"),
             (String.eqb (run_frequency d) "Daily");
    cbn; intros [= <-]; reflexivity.
Qed.

(** X13. A frequency that is none of the six names goes through both
    hooks unchecked: [before_validate] clears no field, [validate]
    checks nothing and derives no cron string. *)
Theorem unknown_frequency_is_not_checked (s : frame) :
  structured (run_frequency (self s)) = false ->
  run_frequency (self s) <> "Cron Style" ->
  fst (before_validate h s) = Ok tt ->
  let s1 := snd (before_validate h s) in
  schedule_fields s1 = schedule_fields s
  /\ validate h s1 = (Ok tt, s1).
Proof.
  intros S F B s1. apply String.eqb_neq in F.
  pose proof (before_validate_fields h s B) as Fs. fold s1 in Fs.
  assert (N : String.eqb (run_frequency (self s)) "Hourly" = false
              /\ String.eqb (run_frequency (self s)) "Daily" = false).
  { unfold structured in S. cbn [existsb] in S.
    destruct (String.eqb (run_frequency (self s)) "Hourly"); [discriminate S|].
    destruct (String.eqb (run_frequency (self s)) "Daily"); [discriminate S|].
    now split. }
  destruct N as [N1 N2]. rewrite F, N1, N2 in Fs.
  split; [exact Fs|].
  assert (R : run_frequency (self s1) = run_frequency (self s)).
  { unfold schedule_fields in Fs. now injection Fs. }
  apply validate_unknown_frequency; now rewrite R.
Qed.

End Hooks_again.




(** The translation reads the clock: the same Daily schedule gives the
    hour 28 five hours behind UTC and 29 six hours behind. *)
Example translation_reads_the_clock :
  cron_fields demo_host (sample "TS-0013" "Daily" (VStr "23") (VInt 5)) =
    Ok [VStr "5"; VStr "28.0"; VStr "*"; VStr "*"; VStr "*"]
  /\ cron_fields (with_clock 1793793600 1793815200 demo_host)
       (sample "TS-0013" "Daily" (VStr "23") (VInt 5)) =
     Ok [VStr "5"; VStr "29.0"; VStr "*"; VStr "*"; VStr "*"].
Proof. split; reflexivity. Qed.

Lemma before_validate_is_idempotent_witness :
  before_validate demo_host
    (snd (before_validate demo_host
            {| self := sample "TS-0013" "Daily" (VStr "7") (VInt 5);
               env := empty_world |})) =
    (Ok tt,
     snd (before_validate demo_host
            {| self := sample "TS-0013" "Daily" (VStr "7") (VInt 5);
               env := empty_world |})).
Proof.
  apply (before_validate_is_idempotent demo_host
           {| self := sample "TS-0013" "Daily" (VStr "7") (VInt 5);
              env := empty_world |}).
  reflexivity.
Defined.

Lemma cleared_fields_witness :
  map (fun field => field (self (snd (before_validate demo_host
         {| self := set_day_of_week (VStr "Monday")
                      (set_month (VStr "Jan")
                         (sample "TS-0014" "Hourly" (VStr "7") (VInt 5)));
            env := empty_world |}))))
      [minute; hour; day_of_month; month; day_of_week] =
    [VInt 5; VNone; VNone; VNone; VNone].
Proof.
  destruct (cleared_fields demo_host
              {| self := set_day_of_week (VStr "Monday")
                           (set_month (VStr "Jan")
                              (sample "TS-0014" "Hourly" (VStr "7") (VInt 5)));
                 env := empty_world |} eq_refl) as (_ & _ & Hourly & _).
  exact (Hourly eq_refl).
Defined.

(** A new Hourly schedule has a cron string after its first pass
    through the hooks and no description yet. *)
Lemma description_is_of_the_previous_cron_string_witness :
  schedule_description
    (set_cron_string (VStr "5 * * * *")
       (set_task_description (VStr "Nightly export")
          (sample "TS-0015" "Hourly" VNone (VInt 5)))) = VNone.
Proof.
  apply (description_is_of_the_previous_cron_string demo_host
           {| self := sample "TS-0015" "Hourly" VNone (VInt 5); env := empty_world |}
           {| self := set_task_description (VStr "Nightly export")
                        (sample "TS-0015" "Hourly" VNone (VInt 5));
              env := empty_world |}
           {| self := set_cron_string (VStr "5 * * * *")
                        (set_task_description (VStr "Nightly export")
                           (sample "TS-0015" "Hourly" VNone (VInt 5)));
              env := empty_world |}); reflexivity.
Defined.

Lemma unknown_frequency_is_not_checked_witness :
  validate demo_host
    {| self := set_task_description (VStr "Nightly export")
                 (sample "TS-0016" "Fortnightly" (VStr "77") (VInt 99));
       env := empty_world |} =
    (Ok tt,
     {| self := set_task_description (VStr "Nightly export")
                  (sample "TS-0016" "Fortnightly" (VStr "77") (VInt 99));
        env := empty_world |}).
Proof.
  destruct (unknown_frequency_is_not_checked demo_host
              {| self := sample "TS-0016" "Fortnightly" (VStr "77") (VInt 99);
                 env := empty_world |} eq_refl ltac:(discriminate) eq_refl)
    as [_ V].
  exact V.
Defined.

(** ** Requests to the daemon *)

Section Requests.

Variable h : host.

(** X14. Saving a disabled schedule that has no row yet, or whose row
    is disabled already, does nothing at all: no request is sent, no
    message is shown and the document is untouched. *)
Theorem nothing_to_cancel (s : frame) :
  contains_char pipe (name (self s)) = false ->
  enabled (self s) = false ->
  (find_doc (name (self s)) (db (env s)) = None
   \/ exists orig, find_doc (name (self s)) (db (env s)) = Some orig
                   /\ enabled orig = false) ->
  before_save h s = (Ok tt, s).
Proof.
  intros P E F. unfold before_save.
  rewrite (bind_ok get_self _ s s (self s)) by reflexivity.
  rewrite P, E. unfold bind, get_doc_before_save.
  destruct F as [-> | (orig & -> & O)]; [reflexivity|].
  now rewrite O.
Qed.

(** X15. Deleting a schedule always asks the daemon to cancel it, once,
    whatever its [enabled] flag and its name, and never asks to reload
    it; the table is not written. When the request returns the handle
    is emptied; when it raises, the exception leaves [on_trash] and the
    document is as it was. *)
Theorem deleting_requests_a_cancel (s : frame) :
  let out := on_trash h s in
  filter is_request (log (env (snd out))) =
    (filter is_request (log (env s)) ++ [cancel_request (name (self s))])%list
  /\ db (env (snd out)) = db (env s)
  /\ match cancel_task_schedule h (name (self s)) with
     | Ok _ => fst out = Ok tt
               /\ self (snd out) = set_redis_job_id "" (self s)
     | Raise e => fst out = Raise e /\ self (snd out) = self s
     end.
Proof.
  unfold on_trash. rewrite cancel_schedule_spec.
  destruct (cancel_task_schedule h (name (self s))) as [response | e];
    cbn; rewrite filter_app; repeat split.
Qed.

(** X16. A resubmission that fails does not save, with or without
    [autosave]: the exception leaves [resubmit_task_schedule] with the
    reload request sent and nothing else done. *)
Theorem failed_resubmission_does_not_save (s : frame) (autosave : bool) (ex : exn) :
  submission_error (reload_task_schedule h (name (self s))) = Some ex ->
  resubmit_task_schedule h autosave s =
    (Raise ex, after [reload_request (name (self s))] s).
Proof.
  intros X. unfold resubmit_task_schedule.
  apply bind_raise. rewrite resubmit_request_spec. now rewrite X.
Qed.

(** X17. With [autosave] the daemon is asked twice. When the daemon
    takes the submission of an enabled schedule, [resubmit_task_schedule]
    saves the document, and the save hook of an enabled document submits
    it again: two reload requests for one call, and one row written. *)
Theorem autosave_submits_twice (s : frame) (d1 d2 : BTUTaskSchedule) :
  contains_char pipe (name (self s)) = false ->
  enabled (self s) = true ->
  submission_error (reload_task_schedule h (name (self s))) = None ->
  hook_result (before_validate h) (self s) = (Ok tt, d1) ->
  hook_result (validate h) d1 = (Ok tt, d2) ->
  let out := resubmit_task_schedule h true s in
  fst out = Ok tt
  /\ self (snd out) = d2
  /\ db (env (snd out)) = db_update d2 (db (env s))
  /\ filter is_request (log (env (snd out))) =
       (filter is_request (log (env s))
          ++ [reload_request (name (self s)); reload_request (name (self s))])%list.
Proof.
  intros P E X B V out.
  set (reply := reload_task_schedule h (name (self s))) in *.
  set (id := name (self s)) in *.
  set (s0 := after (reload_request id :: submission_messages reply) s).
  assert (R : resubmit_request h s = (Ok tt, s0)).
  { rewrite resubmit_request_spec. fold id reply. now rewrite X. }
  assert (B0 : before_validate h s0 = (Ok tt, {| self := d1; env := env s0 |})).
  { unfold s0, after. rewrite env_blind_before_validate. now rewrite B. }
  assert (V0 : validate h {| self := d1; env := env s0 |} =
               (Ok tt, {| self := d2; env := env s0 |})).
  { rewrite env_blind_validate. now rewrite V. }
  pose proof (before_validate_keeps h (self s)) as [N1 E1]. rewrite B in N1, E1.
  pose proof (validate_keeps h d1) as [N2 E2]. rewrite V in N2, E2.
  cbn [snd] in N1, E1, N2, E2.
  destruct (save_goes_through_when_submission_fails h s0
              {| self := d1; env := env s0 |} {| self := d2; env := env s0 |}
              B0 V0 P E) as [S _].
  unfold out, resubmit_task_schedule. rewrite (bind_ok _ _ _ _ _ R), S.
  cbn [fst snd self env db log s0 after].
  repeat split.
  rewrite !filter_app. cbn [filter is_request].
  fold id reply.
  assert (Q : filter is_request (submission_messages reply) = []).
  { unfold submission_messages. now destruct (submission_error reply). }
  rewrite Q. cbn. now rewrite <- app_assoc.
Qed.

End Requests.

Lemma nothing_to_cancel_witness :
  before_save demo_host
    {| self := set_enabled false (sample "TS-0017" "Hourly" VNone (VInt 5));
       env := empty_world |} =
    (Ok tt,
     {| self := set_enabled false (sample "TS-0017" "Hourly" VNone (VInt 5));
        env := empty_world |}).
Proof.
  apply (nothing_to_cancel demo_host
           {| self := set_enabled false (sample "TS-0017" "Hourly" VNone (VInt 5));
              env := empty_world |}); try reflexivity.
  left. reflexivity.
Defined.

Lemma failed_resubmission_does_not_save_witness :
  resubmit_task_schedule (with_daemon daemon_down daemon_down demo_host) true
    {| self := stored_schedule; env := {| db := [stored_schedule]; log := [] |} |} =
    (Raise (ConnectionError "Connection refused"),
     {| self := stored_schedule;
        env := {| db := [stored_schedule];
                  log := [reload_request "TS-0001"] |} |}).
Proof.
  apply (failed_resubmission_does_not_save
           (with_daemon daemon_down daemon_down demo_host)
           {| self := stored_schedule;
              env := {| db := [stored_schedule]; log := [] |} |} true).
  reflexivity.
Defined.

Lemma autosave_submits_twice_witness :
  fst (resubmit_task_schedule demo_host true
         {| self := stored_schedule; env := {| db := [stored_schedule]; log := [] |} |})
    = Ok tt
  /\ filter is_request
       (log (env (snd (resubmit_task_schedule demo_host true
          {| self := stored_schedule;
             env := {| db := [stored_schedule]; log := [] |} |})))) =
     [reload_request "TS-0001"; reload_request "TS-0001"].
Proof.
  destruct (autosave_submits_twice demo_host
              {| self := stored_schedule;
                 env := {| db := [stored_schedule]; log := [] |} |}
              (set_hour VNone (set_task_description (VStr "Nightly export") stored_schedule))
              (set_cron_string (VStr "5 * * * *")
                 (set_hour VNone
                    (set_task_description (VStr "Nightly export") stored_schedule)))
              eq_refl eq_refl eq_refl eq_refl eq_refl) as (R & _ & _ & L).
  split; [exact R|exact L].
Defined.

(** ** Reading the results when the store fails *)

Section Results_again.

Variable h : host.

(** X18. Whatever goes wrong while the status is read, the read
    raising, no status on record or bytes that are not UTF-8, is
    swallowed: the method says that no job information is available,
    reads nothing more and returns. *)
Theorem status_failures_are_swallowed (s : frame) :
  (raised (hget h ("rq:job:" ++ redis_job_id (self s)) "status") = true
   \/ hget h ("rq:job:" ++ redis_job_id (self s)) "status" = Ok None
   \/ exists raw, hget h ("rq:job:" ++ redis_job_id (self s)) "status" = Ok (Some raw)
                  /\ raised (decode_utf8 h raw) = true) ->
  get_last_execution_results h s =
    (Ok tt, after [msgprint ("No job information is available for Job "
                               ++ redis_job_id (self s))] s).
Proof.
  intros F. unfold get_last_execution_results.
  rewrite (bind_ok get_self _ s s (self s)) by reflexivity.
  destruct F as [F | [F | (raw & F & D)]].
  - destruct (hget h ("rq:job:" ++ redis_job_id (self s)) "status");
      [discriminate F|reflexivity].
  - rewrite F. reflexivity.
  - rewrite F. cbn [rbind].
    destruct (decode_utf8 h raw); [discriminate D|reflexivity].
Qed.

(** X19. Past the status nothing is caught. For a job that is not
    finished, an exception of the read of the payload or of its
    decompression leaves the method, after the status was shown. *)
Theorem payload_failures_propagate (s : frame) (raw job_status : string) (e : exn) :
  hget h ("rq:job:" ++ redis_job_id (self s)) "status" = Ok (Some raw) ->
  decode_utf8 h raw = Ok job_status ->
  job_status <> "finished" ->
  (hget h ("rq:job:" ++ redis_job_id (self s)) "exc_info" = Raise e
   \/ exists data, data <> ""
        /\ hget h ("rq:job:" ++ redis_job_id (self s)) "exc_info" = Ok (Some data)
        /\ zlib_decompress h data = Raise e) ->
  get_last_execution_results h s =
    (Raise e, after [msgprint ("Job status = " ++ job_status)] s).
Proof.
  intros St De NF F. unfold get_last_execution_results.
  rewrite (bind_ok get_self _ s s (self s)) by reflexivity.
  rewrite St. cbn [rbind]. rewrite De.
  apply String.eqb_neq in NF. rewrite NF.
  unfold bind, emit, modify, lift, after, record_event.
  cbn [fst snd self env db log].
  destruct F as [F | (data & N & F & Z)]; rewrite F; [reflexivity|].
  destruct data as [|c rest]; [congruence|]. now rewrite Z.
Qed.

(** X20. Reading the results is read-only on this side: whatever the
    store answers, the document and the table are as before and no
    request goes to the daemon. *)
Theorem reading_results_changes_nothing (s : frame) :
  let out := get_last_execution_results h s in
  self (snd out) = self s
  /\ db (env (snd out)) = db (env s)
  /\ filter is_request (log (env (snd out))) = filter is_request (log (env s)).
Proof.
  unfold get_last_execution_results.
  rewrite (bind_ok get_self _ s s (self s)) by reflexivity.
  destruct s as [d [rows l]]. cbn [self redis_job_id].
  unfold bind, emit, modify, lift, record_event.
  destruct (hget h ("rq:job:" ++ redis_job_id d) "status") as [[raw|]|];
    cbn [rbind fst snd self env db log];
    rewrite ?filter_app, ?app_nil_r; try (repeat split; cbn; now rewrite ?app_nil_r).
  destruct (decode_utf8 h raw) as [job_status|];
    cbn [fst snd self env db log];
    rewrite ?filter_app; try (repeat split; cbn; now rewrite ?app_nil_r).
  destruct (String.eqb job_status "finished");
    cbn [fst snd self env db log];
    rewrite ?filter_app; try (repeat split; cbn; now rewrite ?app_nil_r).
  destruct (hget h ("rq:job:" ++ redis_job_id d) "exc_info") as [[[|c rest]|]|];
    cbn [fst snd self env db log];
    rewrite ?filter_app; try (repeat split; cbn; now rewrite ?app_nil_r).
  destruct (zlib_decompress h (String c rest));
    cbn [fst snd self env db log];
    rewrite ?filter_app; repeat split; cbn; now rewrite ?app_nil_r.
Qed.

End Results_again.

Lemma status_failures_are_swallowed_witness :
  get_last_execution_results demo_host (scheduled_as "job-unknown") =
    (Ok tt,
     {| self := self (scheduled_as "job-unknown");
        env := {| db := [];
                  log := [msgprint "No job information is available for Job job-unknown"] |} |}).
Proof.
  apply (status_failures_are_swallowed demo_host (scheduled_as "job-unknown")).
  right. left. reflexivity.
Defined.

Lemma payload_failures_propagate_witness :
  get_last_execution_results (with_store garbled_store demo_host)
    (scheduled_as "job-garbled") =
    (Raise (OtherException "incorrect header check"),
     {| self := self (scheduled_as "job-garbled");
        env := {| db := []; log := [msgprint "Job status = failed"] |} |}).
Proof.
  apply (payload_failures_propagate (with_store garbled_store demo_host)
           (scheduled_as "job-garbled") "failed" "failed");
    try reflexivity; [discriminate|].
  right. exists "not compressed". repeat split. discriminate.
Defined.

(** ** More on the bulk resubmission *)

Lemma no_enabled_ids (rows : list BTUTaskSchedule) :
  (forall x, In x rows -> enabled x = false) -> enabled_ids rows = [].
Proof.
  unfold enabled_ids. induction rows as [|d rows IH]; intros A; [reflexivity|].
  cbn. rewrite (A d (or_introl eq_refl)). apply IH.
  intros x I. apply A. now right.
Qed.

(** X21. On a table without an enabled schedule the bulk pass does
    nothing: it returns, sends no request, shows no message and writes
    no row. *)
Theorem nothing_enabled_nothing_done (h : host) (w : world) :
  (forall x, In x (db w) -> enabled x = false) ->
  resubmit_all_task_schedules h w = (Ok tt, {| doc_schedule := None; table := w |}).
Proof.
  intros A. unfold resubmit_all_task_schedules.
  now rewrite (no_enabled_ids _ A).
Qed.

Lemma nothing_enabled_nothing_done_witness :
  resubmit_all_task_schedules demo_host table_of_disabled_schedules =
    (Ok tt, {| doc_schedule := None; table := table_of_disabled_schedules |}).
Proof.
  apply (nothing_enabled_nothing_done demo_host table_of_disabled_schedules).
  intros x [<- | [<- | []]]; reflexivity.
Defined.

Lemma resubmission_failures_are_isolated_witness :
  fst (resubmit_all_task_schedules
         (with_daemon (daemon_down_for "TS-A") (cancel_task_schedule demo_host) demo_host)
         table_of_valid_schedules) = Ok tt
  /\ NoDup (enabled_ids (db table_of_valid_schedules)).
Proof.
  destruct (resubmission_failures_are_isolated
              (with_daemon (daemon_down_for "TS-A")
                 (cancel_task_schedule demo_host) demo_host)
              table_of_valid_schedules) as (R & _ & _ & N).
  - repeat constructor; cbn; intuition discriminate.
  - intros x [<- | [<- | [<- | []]]] E; try discriminate E; vm_compute; discriminate.
  - split; [exact R|exact N].
Defined.

(** ** The hour in zones that are not whole hours from UTC *)

Lemma quarter_hour_table :
  forallb (fun q => forallb (quarter_hour_check q) (Zrange 0 24)) (Zrange (-96) 193)
  = true.
Proof. vm_compute. reflexivity. Qed.

(** X22. For every zone whose offset from UTC is a number [q] of
    quarters of an hour, up to a day either way, the float arithmetic
    of [get_utc_time_diff] and of the subtraction is exact: the
    corrected hour of [n] is [(4 n - q) / 4], so half and quarter hours
    appear in the hour field as fractions. *)
Theorem corrected_hour_quarter_hours (h : host) (n q : Z) :
  0 <= n < 24 ->
  -96 <= q <= 96 ->
  timegm_localtime h - timegm_gmtime h = 900 * q ->
  corrected_hour h n = PrimFloat.div (float_of_int (4 * n - q)) (float_of_int 4).
Proof.
  intros N Q T. unfold corrected_hour, get_utc_time_diff. rewrite T.
  pose proof quarter_hour_table as W.
  rewrite forallb_forall in W.
  specialize (W q (In_Zrange (-96) q 193 ltac:(lia))).
  rewrite forallb_forall in W.
  specialize (W n (In_Zrange 0 n 24 ltac:(lia))).
  now apply FloatAxioms.Leibniz.eqb_spec in W.
Qed.

(** Five and a half hours ahead of UTC, 9 o'clock is 3.5. *)
Lemma corrected_hour_quarter_hours_witness :
  corrected_hour (with_clock 1793835000 1793815200 demo_host) 9 = 3.5%float.
Proof.
  apply (corrected_hour_quarter_hours
           (with_clock 1793835000 1793815200 demo_host) 9 22).
  - split; [apply Z.leb_le|apply Z.ltb_lt]; reflexivity.
  - split; apply Z.leb_le; reflexivity.
  - reflexivity.
Defined.

Lemma hourly_cron_string_witness :
  validate demo_host
    (snd (before_validate demo_host
            {| self := sample "TS-0018" "Hourly" (VStr "11") (VInt 7);
               env := empty_world |})) =
    (Ok tt,
     {| self := set_cron_string (VStr "7 * * * *")
                  (self (snd (before_validate demo_host
                     {| self := sample "TS-0018" "Hourly" (VStr "11") (VInt 7);
                        env := empty_world |})));
        env := empty_world |}).
Proof.
  apply (hourly_cron_string demo_host
           {| self := sample "TS-0018" "Hourly" (VStr "11") (VInt 7);
              env := empty_world |} 7); try reflexivity.
  split; apply Z.leb_le; reflexivity.
Defined.

(** ** What the translation can return *)

Lemma join_of_five (c0 c1 c2 c3 c4 : value) (text : string) :
  join " " [c0; c1; c2; c3; c4] = Ok text ->
  exists f0 f1 f2 f3 f4,
    [c0; c1; c2; c3; c4] = [VStr f0; VStr f1; VStr f2; VStr f3; VStr f4]
    /\ text = f0 ++ " " ++ f1 ++ " " ++ f2 ++ " " ++ f3 ++ " " ++ f4.
Proof.
  destruct c0 as [| |f0], c1 as [| |f1], c2 as [| |f2], c3 as [| |f3],
    c4 as [| |f4]; cbn; try discriminate.
  intros [= <-]. now exists f0, f1, f2, f3, f4.
Qed.

(** X25. Whatever [schedule_to_cron_string] returns for a frequency
    other than Cron Style is a text of five fields joined by single
    spaces that the grammar check, asked to raise on an invalid string,
    has let through; the first field is a wildcard exactly when the
    minute is unset, and likewise the second for the hour. *)
Theorem translation_is_checked (h : host) (doc : BTUTaskSchedule) (v : value) :
  run_frequency doc <> "Cron Style" ->
  schedule_to_cron_string h doc = Ok v ->
  exists f0 f1 f2 f3 f4,
    v = VStr (f0 ++ " " ++ f1 ++ " " ++ f2 ++ " " ++ f3 ++ " " ++ f4)
    /\ raised (validate_cron_string h
                 (f0 ++ " " ++ f1 ++ " " ++ f2 ++ " " ++ f3 ++ " " ++ f4)
                 (Some true)) = false
    /\ (minute doc = VNone -> f0 = "*")
    /\ (hour doc = VNone -> f1 = "*")
    /\ (day_of_month doc = VNone -> f2 = "*")
    /\ (month doc = VNone -> f3 = "*")
    /\ (day_of_week doc = VNone -> f4 = "*").
Proof.
  intros F. apply String.eqb_neq in F. unfold schedule_to_cron_string.
  rewrite F. unfold cron_fields.
  destruct (if is_None (hour doc) then Ok (VStr "*")
            else rbind (py_int (hour doc))
                   (fun n => Ok (VStr (float_str h
                      (PrimFloat.sub (float_of_int n) (get_utc_time_diff h))))))
    as [c1|] eqn:C1; cbn [rbind]; [|discriminate].
  destruct (match day_of_week doc with
            | VNone => Ok (VStr "*")
            | VInt _ => Raise (TypeError "'int' object is not subscriptable")
            | VStr s => Ok (VStr (first_three s))
            end) as [c4|] eqn:C4; cbn [rbind]; [|discriminate].
  match goal with
  | |- context [join " " ?l] => destruct (join " " l) as [text|] eqn:J
  end; cbn [rbind]; [|discriminate].
  destruct (validate_cron_string h text (Some true)) eqn:V; cbn [rbind];
    [|discriminate].
  intros [= <-].
  destruct (join_of_five _ _ _ _ _ _ J) as (f0 & f1 & f2 & f3 & f4 & L & T).
  injection L as L0 L1 L2 L3 L4. subst c1 c4.
  exists f0, f1, f2, f3, f4. rewrite <- T, V.
  repeat split.
  - intros N. rewrite N in L0. cbn in L0. congruence.
  - intros N. rewrite N in C1. cbn in C1. congruence.
  - intros N. rewrite N in L2. cbn in L2. congruence.
  - intros N. rewrite N in L3. cbn in L3. congruence.
  - intros N. rewrite N in C4. congruence.
Qed.

Lemma translation_is_checked_witness :
  exists f0 f1 f2 f3 f4,
    VStr "7 * * * *" =
      VStr (f0 ++ " " ++ f1 ++ " " ++ f2 ++ " " ++ f3 ++ " " ++ f4)
    /\ raised (validate_cron_string demo_host
                 (f0 ++ " " ++ f1 ++ " " ++ f2 ++ " " ++ f3 ++ " " ++ f4)
                 (Some true)) = false
    /\ (minute (sample "TS-0019" "Hourly" VNone (VInt 7)) = VNone -> f0 = "*")
    /\ (hour (sample "TS-0019" "Hourly" VNone (VInt 7)) = VNone -> f1 = "*")
    /\ (day_of_month (sample "TS-0019" "Hourly" VNone (VInt 7)) = VNone
        -> f2 = "*")
    /\ (month (sample "TS-0019" "Hourly" VNone (VInt 7)) = VNone -> f3 = "*")
    /\ (day_of_week (sample "TS-0019" "Hourly" VNone (VInt 7)) = VNone
        -> f4 = "*").
Proof.
  apply (translation_is_checked demo_host
           (sample "TS-0019" "Hourly" VNone (VInt 7))
           (VStr "7 * * * *")); [discriminate|reflexivity].
Defined.
